(** * ReStreamYoutube: a shallow embedding of [ReStreamYoutube.py]

    The program picks the most recently modified [.mp4] file of a folder and
    hands it to an [ffmpeg] child process that streams it to an RTMP
    endpoint.  The embedding follows the module function by function:

    - Python [str] values are lists of Unicode code points ([list N]);
    - an exception that leaves a function is a [Raise] result;
    - the module globals, the status label, the settings file and the
      traces of the effects (message boxes, [Popen] calls, [terminate]
      calls, [print] lines) are the fields of one [State] record;
    - what the operating system answers ([os.listdir], [os.path.getmtime],
      [os.path.join], [os.path.basename], whether [Popen] succeeds) is an
      [OS] record the functions take as an argument;
    - the main loop is a list of user actions, each running one callback. *)

From Stdlib Require Import NArith ZArith String Ascii List Bool Lia.
Import ListNotations.

(* ================================================================== *)
(** * Python values *)
(* ================================================================== *)

(** A Python [str]: its code points, each below [0x110000]. *)
Abbreviation pystr := (list N).

(** The code points of a literal made of Latin-1 characters. *)
Definition str (s : string) : pystr := map N_of_ascii (list_ascii_of_string s).

Definition pystr_eqb (a b : pystr) : bool :=
  if list_eq_dec N.eq_dec a b then true else false.

(** [not s] for a [str]: true exactly on the empty string. *)
Definition py_not (s : pystr) : bool :=
  match s with [] => true | _ :: _ => false end.

(** A code point that [chr] can return. *)
Definition code_point (c : N) : Prop := (c < 0x110000)%N.

Definition high_surrogate (c : N) : bool := ((0xd800 <=? c) && (c <=? 0xdbff))%N.
Definition low_surrogate (c : N) : bool := ((0xdc00 <=? c) && (c <=? 0xdfff))%N.

(** Exceptions that can leave the functions of the module.  The last two
    are not Python exceptions.  [NotModelled] is the answer for a JSON
    document with a value that does not start like a string (the settings
    store never writes one): Python parses such a value or raises
    [JSONDecodeError], and the embedding says nothing about what the program
    does then.  [FuelExhausted] marks a loop cut short by its fuel, which
    [loads_fuel_enough] below rules out. *)
Inductive exc : Type :=
  | OSError (errno : N)
  | FileNotFoundError
  | JSONDecodeError
  | KeyError (key : pystr)
  | ValueError
  | UnicodeEncodeError
  | NotModelled
  | FuelExhausted.

Inductive result (A : Type) : Type :=
  | Ret (a : A)
  | Raise (e : exc).
Arguments Ret {A} a.
Arguments Raise {A} e.

Definition bind {A B} (m : result A) (k : A -> result B) : result B :=
  match m with
  | Ret a => k a
  | Raise e => Raise e
  end.

Declare Scope result_scope.
Delimit Scope result_scope with result.
Notation "x <- m ;; k" := (bind m (fun x => k))
  (at level 61, m at next level, right associativity) : result_scope.
Notation "' p <- m ;; k" := (bind m (fun x => let p := x in k))
  (at level 61, p pattern, m at next level, right associativity) : result_scope.
Open Scope result_scope.

(** A Python [dict] with [str] keys and values, in insertion order. *)
Abbreviation pydict := (list (pystr * pystr)).

(** [d[k] = v]: a key that is present keeps its place. *)
Fixpoint dict_set (k v : pystr) (d : pydict) : pydict :=
  match d with
  | [] => [(k, v)]
  | (k', v') :: d' =>
      if pystr_eqb k' k then (k', v) :: d' else (k', v') :: dict_set k v d'
  end.

(** [d[k]], which raises [KeyError] on a missing key. *)
Fixpoint dict_get (d : pydict) (k : pystr) : result pystr :=
  match d with
  | [] => Raise (KeyError k)
  | (k', v) :: d' => if pystr_eqb k' k then Ret v else dict_get d' k
  end.

(** [dict(pairs)]. *)
Definition dict_of_pairs (pairs : list (pystr * pystr)) : pydict :=
  fold_left (fun d kv => dict_set (fst kv) (snd kv) d) pairs [].

(* ================================================================== *)
(** * The [json] module, on records of strings *)
(* ================================================================== *)

Module Json.
Local Open Scope N_scope.

(** ** [json.dump]: [py_encode_basestring_ascii] and the dict encoder *)

Definition hexdigit (n : N) : N := if n <? 10 then 48 + n else 87 + n.

(** ['\\u{0:04x}'.format(n)], called with [n < 0x10000] only. *)
Definition u_escape (n : N) : pystr :=
  [92; 117;
   hexdigit (N.land (N.shiftr n 12) 15); hexdigit (N.land (N.shiftr n 8) 15);
   hexdigit (N.land (N.shiftr n 4) 15); hexdigit (N.land n 15)].

(** [ESCAPE_ASCII]: a backslash, a double quote, or anything outside the
    printable ASCII range from space to tilde. *)
Definition ESCAPE_ASCII (c : N) : bool :=
  (c =? 92) || (c =? 34) || negb ((32 <=? c) && (c <=? 126)).

(** The [replace] callback: [ESCAPE_DCT] first, then the [\u] forms. *)
Definition replace (c : N) : pystr :=
  if c =? 92 then [92; 92]
  else if c =? 34 then [92; 34]
  else if c =? 8 then [92; 98]
  else if c =? 12 then [92; 102]
  else if c =? 10 then [92; 110]
  else if c =? 13 then [92; 114]
  else if c =? 9 then [92; 116]
  else if c <? 0x10000 then u_escape c
  else
    let n := c - 0x10000 in
    let s1 := N.lor 0xd800 (N.land (N.shiftr n 10) 0x3ff) in
    let s2 := N.lor 0xdc00 (N.land n 0x3ff) in
    u_escape s1 ++ u_escape s2.

Definition escape (s : pystr) : pystr :=
  flat_map (fun c => if ESCAPE_ASCII c then replace c else [c]) s.

Definition py_encode_basestring_ascii (s : pystr) : pystr :=
  34 :: escape s ++ [34].

(** [_iterencode_dict] with the default separators [', '] and [': ']. *)
Fixpoint iterencode_items (first : bool) (d : pydict) : pystr :=
  match d with
  | [] => []
  | (k, v) :: d' =>
      (if first then [] else [44; 32])
        ++ py_encode_basestring_ascii k ++ [58; 32]
        ++ py_encode_basestring_ascii v
        ++ iterencode_items false d'
  end.

Definition dumps (d : pydict) : pystr :=
  match d with
  | [] => [123; 125]
  | _ => 123 :: iterencode_items true d ++ [125]
  end.

(** ** [json.load]: [py_scanstring], [JSONObject], [JSONDecoder.decode] *)

Definition hexval (c : N) : option N :=
  if (48 <=? c) && (c <=? 57) then Some (c - 48)
  else if (97 <=? c) && (c <=? 102) then Some (c - 87)
  else if (65 <=? c) && (c <=? 70) then Some (c - 55)
  else None.

(** [_decode_uXXXX], on the text that follows the [u]. *)
Definition decode_uXXXX (s : pystr) : result N :=
  match s with
  | a :: b :: c :: d :: _ =>
      match hexval a, hexval b, hexval c, hexval d with
      | Some a, Some b, Some c, Some d => Ret (((a * 16 + b) * 16 + c) * 16 + d)
      | _, _, _, _ => Raise JSONDecodeError
      end
  | _ => Raise JSONDecodeError
  end.

(** The [BACKSLASH] table. *)
Definition BACKSLASH (esc : N) : result N :=
  if esc =? 34 then Ret 34
  else if esc =? 92 then Ret 92
  else if esc =? 47 then Ret 47
  else if esc =? 98 then Ret 8
  else if esc =? 102 then Ret 12
  else if esc =? 110 then Ret 10
  else if esc =? 114 then Ret 13
  else if esc =? 116 then Ret 9
  else Raise JSONDecodeError.

(** [s[end:end + 2] == '\\u']. *)
Definition starts_with_u_escape (s : pystr) : bool :=
  match s with
  | a :: s' => (a =? 92) && match s' with b :: _ => b =? 117 | [] => false end
  | [] => false
  end.

(** The part of [py_scanstring] that handles [\uXXXX]; [s] follows the [u].
    Returns the character and the text after the escape. *)
Definition scan_u_escape (s : pystr) : result (N * pystr) :=
  uni <- decode_uXXXX s ;;
  let s' := skipn 4 s in
  if high_surrogate uni && starts_with_u_escape s' then
    uni2 <- decode_uXXXX (skipn 2 s') ;;
    if low_surrogate uni2 then
      Ret (0x10000 + N.lor (N.shiftl (uni - 0xd800) 10) (uni2 - 0xdc00),
           skipn 6 s')
    else Ret (uni, s')
  else Ret (uni, s').

(** The [while 1] loop of [py_scanstring] in strict mode; [s] follows the
    opening quote.  Returns the string and the text after the closing
    quote.  One round handles one character or one escape. *)
Fixpoint scanstring_loop (fuel : nat) (s : pystr) : result (pystr * pystr) :=
  match fuel with
  | O => Raise FuelExhausted
  | S fuel' =>
      match s with
      | [] => Raise JSONDecodeError
      | c :: rest =>
          if c =? 34 then Ret ([], rest)
          else if c =? 92 then
            match rest with
            | [] => Raise JSONDecodeError
            | esc :: rest' =>
                '(char, rest'') <-
                  (if esc =? 117 then scan_u_escape rest'
                   else (char <- BACKSLASH esc ;; Ret (char, rest'))) ;;
                '(tail, after) <- scanstring_loop fuel' rest'' ;;
                Ret (char :: tail, after)
            end
          else if c <? 32 then Raise JSONDecodeError
          else
            '(tail, after) <- scanstring_loop fuel' rest ;;
            Ret (c :: tail, after)
      end
  end.

Definition scanstring (s : pystr) : result (pystr * pystr) :=
  scanstring_loop (S (length s)) s.

(** [WHITESPACE.match(s, end).end()]. *)
Definition is_ws (c : N) : bool := (c =? 32) || (c =? 9) || (c =? 10) || (c =? 13).

Fixpoint skip_ws (s : pystr) : pystr :=
  match s with
  | c :: rest => if is_ws c then skip_ws rest else s
  | [] => []
  end.

(** A character that can start a JSON value other than a string. *)
Definition starts_other_value (c : N) : bool :=
  (c =? 123) || (c =? 91) || (c =? 110) || (c =? 116) || (c =? 102)
  || (c =? 78) || (c =? 73) || (c =? 45) || ((48 <=? c) && (c <=? 57)).

(** [scan_once] at a value position. *)
Definition scan_once (s : pystr) : result (pystr * pystr) :=
  match s with
  | [] => Raise JSONDecodeError
  | c :: rest =>
      if c =? 34 then scanstring rest
      else if starts_other_value c then Raise NotModelled
      else Raise JSONDecodeError
  end.

(** The [while True] loop of [JSONObject]; [s] follows the opening quote
    of a key, [pairs] holds the members read so far, last first. *)
Fixpoint JSONObject_loop (fuel : nat) (s : pystr) (pairs : list (pystr * pystr))
  : result (list (pystr * pystr) * pystr) :=
  match fuel with
  | O => Raise FuelExhausted
  | S fuel' =>
      '(key, s1) <- scanstring s ;;
      match skip_ws s1 with
      | [] => Raise JSONDecodeError
      | colon :: s2 =>
          if negb (colon =? 58) then Raise JSONDecodeError
          else
            '(value, s3) <- scan_once (skip_ws s2) ;;
            let pairs' := (key, value) :: pairs in
            match skip_ws s3 with
            | [] => Raise JSONDecodeError
            | nextchar :: s4 =>
                if nextchar =? 125 then Ret (rev pairs', s4)
                else if negb (nextchar =? 44) then Raise JSONDecodeError
                else
                  match skip_ws s4 with
                  | [] => Raise JSONDecodeError
                  | q :: s5 =>
                      if q =? 34 then JSONObject_loop fuel' s5 pairs'
                      else Raise JSONDecodeError
                  end
            end
      end
  end.

(** [JSONObject]; [s] follows the opening brace. *)
Definition JSONObject (s : pystr) : result (pydict * pystr) :=
  match skip_ws s with
  | [] => Raise JSONDecodeError
  | nextchar :: s1 =>
      if nextchar =? 125 then Ret ([], s1)
      else if nextchar =? 34 then
        '(pairs, rest) <- JSONObject_loop (S (length s1)) s1 [] ;;
        Ret (dict_of_pairs pairs, rest)
      else Raise JSONDecodeError
  end.

(** [json.loads] on a text whose value is an object. *)
Definition loads (s : pystr) : result pydict :=
  match skip_ws s with
  | [] => Raise JSONDecodeError
  | c :: rest =>
      if c =? 123 then
        '(obj, rest') <- JSONObject rest ;;
        match skip_ws rest' with
        | [] => Ret obj
        | _ :: _ => Raise JSONDecodeError
        end
      else if (c =? 34) || starts_other_value c then Raise NotModelled
      else Raise JSONDecodeError
  end.

End Json.

(* ================================================================== *)
(** * The operating system and the state of the program *)
(* ================================================================== *)

(** What the calls into [os], [os.path], [sys.stdout] and [subprocess]
    answer.  A folder that cannot be listed and a file that cannot be
    examined raise; [print] raises when the standard output does not take
    the line (a path its encoding cannot write); [Popen] raises when the
    child cannot be started. *)
Record OS : Type := {
  os_listdir : pystr -> result (list pystr);
  os_path_getmtime : pystr -> result Z;
  os_path_join : pystr -> pystr -> pystr;
  os_path_basename : pystr -> pystr;
  print_raises : pystr -> option exc;
  Popen_raises : list pystr -> option exc
}.

(** [stream_status_label]: the options set by [config(text=..., fg=...)]. *)
Record Label : Type := { text : pystr; fg : pystr }.

Inductive messagebox : Type :=
  | showerror (title message : pystr)
  | showwarning (title message : pystr)
  | showinfo (title message : pystr).

(** A [Popen] object is named by the rank of its call among all calls. *)
Abbreviation handle := nat.

Record State : Type := {
  VIDEO_FOLDER : pystr;
  ffmpeg_process : option handle;
  YOUTUBE_URL : pystr;
  STREAM_KEY : pystr;
  stream_status_label : Label;
  config_file : option pystr;
  messageboxes : list messagebox;
  Popen_calls : list (list pystr);
  terminate_calls : list handle;
  stdout : list pystr
}.

Definition show (m : messagebox) (st : State) : State :=
  {| VIDEO_FOLDER := VIDEO_FOLDER st; ffmpeg_process := ffmpeg_process st;
     YOUTUBE_URL := YOUTUBE_URL st; STREAM_KEY := STREAM_KEY st;
     stream_status_label := stream_status_label st;
     config_file := config_file st;
     messageboxes := messageboxes st ++ [m];
     Popen_calls := Popen_calls st; terminate_calls := terminate_calls st;
     stdout := stdout st |}.

(** A [print] that the standard output takes; [print_raises] tells when
    it does not. *)
Definition print (line : pystr) (st : State) : State :=
  {| VIDEO_FOLDER := VIDEO_FOLDER st; ffmpeg_process := ffmpeg_process st;
     YOUTUBE_URL := YOUTUBE_URL st; STREAM_KEY := STREAM_KEY st;
     stream_status_label := stream_status_label st;
     config_file := config_file st;
     messageboxes := messageboxes st;
     Popen_calls := Popen_calls st; terminate_calls := terminate_calls st;
     stdout := stdout st ++ [line] |}.

Definition write_config_file (content : pystr) (st : State) : State :=
  {| VIDEO_FOLDER := VIDEO_FOLDER st; ffmpeg_process := ffmpeg_process st;
     YOUTUBE_URL := YOUTUBE_URL st; STREAM_KEY := STREAM_KEY st;
     stream_status_label := stream_status_label st;
     config_file := Some content;
     messageboxes := messageboxes st;
     Popen_calls := Popen_calls st; terminate_calls := terminate_calls st;
     stdout := stdout st |}.

(** [select_folder]; [folder] is what the directory dialog returns, the
    empty string when it is cancelled. *)
Definition select_folder (folder : pystr) (st : State) : State :=
  if py_not folder then st
  else
    {| VIDEO_FOLDER := folder; ffmpeg_process := ffmpeg_process st;
       YOUTUBE_URL := YOUTUBE_URL st; STREAM_KEY := STREAM_KEY st;
       stream_status_label := stream_status_label st;
       config_file := config_file st;
       messageboxes := messageboxes st;
       Popen_calls := Popen_calls st; terminate_calls := terminate_calls st;
       stdout := stdout st |}.

(** [ffmpeg_process = subprocess.Popen(cmd, ...)] followed by
    [stream_status_label.config(text=t, fg=c)]. *)
Definition spawned (cmd : list pystr) (l : Label) (st : State) : State :=
  {| VIDEO_FOLDER := VIDEO_FOLDER st;
     ffmpeg_process := Some (length (Popen_calls st));
     YOUTUBE_URL := YOUTUBE_URL st; STREAM_KEY := STREAM_KEY st;
     stream_status_label := l;
     config_file := config_file st;
     messageboxes := messageboxes st;
     Popen_calls := Popen_calls st ++ [cmd];
     terminate_calls := terminate_calls st;
     stdout := stdout st |}.

(** [p.terminate()], [ffmpeg_process = None] and the label update. *)
Definition terminated (p : handle) (l : Label) (st : State) : State :=
  {| VIDEO_FOLDER := VIDEO_FOLDER st;
     ffmpeg_process := None;
     YOUTUBE_URL := YOUTUBE_URL st; STREAM_KEY := STREAM_KEY st;
     stream_status_label := l;
     config_file := config_file st;
     messageboxes := messageboxes st;
     Popen_calls := Popen_calls st;
     terminate_calls := terminate_calls st ++ [p];
     stdout := stdout st |}.

(* ================================================================== *)
(** * The settings store *)
(* ================================================================== *)

Definition default_config : pydict :=
  [(str "YOUTUBE_URL", str "rtmp://a.rtmp.youtube.com/live2");
   (str "STREAM_KEY", str "")].

(** Lines 22 to 24: write the defaults when [CONFIG_FILE] does not exist. *)
Definition create_config_file (file : option pystr) : option pystr :=
  match file with
  | None => Some (Json.dumps default_config)
  | Some _ => file
  end.

(** [load_config], on the contents of [CONFIG_FILE]. *)
Definition load_config (file : option pystr) : result pydict :=
  match file with
  | None => Raise FileNotFoundError
  | Some content => Json.loads content
  end.

(** [save_config] when [open] and the write succeed; [save_config_failing]
    below is the call when they do not. *)
Definition save_config (yt_url stream_key : pystr) (st : State) : State :=
  let config := [(str "YOUTUBE_URL", yt_url); (str "STREAM_KEY", stream_key)] in
  write_config_file (Json.dumps config) st.

(** The module body up to the main loop: lines 22 to 24, the first load
    (lines 45 to 47), the globals (lines 50 and 51) and the status label
    (line 191).  [file] is [CONFIG_FILE] as the program finds it.  The
    window and the [ffmpeg] check of line 163 are left out. *)
Definition module_init (file : option pystr) : result State :=
  let file' := create_config_file file in
  config <- load_config file' ;;
  yt_url <- dict_get config (str "YOUTUBE_URL") ;;
  stream_key <- dict_get config (str "STREAM_KEY") ;;
  Ret {| VIDEO_FOLDER := str "";
         ffmpeg_process := None;
         YOUTUBE_URL := yt_url; STREAM_KEY := stream_key;
         stream_status_label :=
           {| text := str "Stream Status: Not Started"; fg := str "gray" |};
         config_file := file';
         messageboxes := []; Popen_calls := []; terminate_calls := [];
         stdout := [] |}.

(* ================================================================== *)
(** * The newest-file selector *)
(* ================================================================== *)

(** [s.endswith(suffix)]: case-sensitive, code point by code point. *)
Definition endswith (s suffix : pystr) : bool :=
  (length suffix <=? length s)%nat
  && pystr_eqb (skipn (length s - length suffix) s) suffix.

(** The loop of [max(iterable, key=...)] after its first item: a later item
    replaces the current one only when its key is strictly greater. *)
Fixpoint max_loop {A} (key : A -> result Z) (maxitem : A) (maxval : Z)
    (l : list A) : result A :=
  match l with
  | [] => Ret maxitem
  | item :: l' =>
      val <- key item ;;
      if (maxval <? val)%Z then max_loop key item val l'
      else max_loop key maxitem maxval l'
  end.

Definition py_max {A} (key : A -> result Z) (l : list A) : result A :=
  match l with
  | [] => Raise ValueError
  | item :: l' => val <- key item ;; max_loop key item val l'
  end.

Definition get_newest_mp4 (os : OS) (folder : pystr) : result (option pystr) :=
  if py_not folder then Ret None
  else
    names <- os_listdir os folder ;;
    let mp4_files :=
      map (os_path_join os folder)
          (filter (fun f => endswith f (str ".mp4")) names) in
    match mp4_files with
    | [] => Ret None
    | _ :: _ => newest <- py_max (os_path_getmtime os) mp4_files ;; Ret (Some newest)
    end.

(* ================================================================== *)
(** * The stream supervisor *)
(* ================================================================== *)

Definition ffmpeg_command (newest_mp4 youtube_url stream_key : pystr)
  : list pystr :=
  [ str "ffmpeg";
    str "-re";
    str "-i"; newest_mp4;
    str "-s"; str "1920x1080";
    str "-r"; str "30";
    str "-c:v"; str "libx264";
    str "-preset"; str "veryfast";
    str "-b:v"; str "4500k";
    str "-maxrate"; str "5000k";
    str "-bufsize"; str "10000k";
    str "-pix_fmt"; str "yuv420p";
    str "-g"; str "60";
    str "-c:a"; str "aac";
    str "-b:a"; str "192k";
    str "-ac"; str "2";
    str "-ar"; str "44100";
    str "-f"; str "flv";
    youtube_url ++ str "/" ++ stream_key ].

(** How a call of [start_stream] ends.  The function itself returns [None]
    on every path; the first three rejections are told apart by the message
    box they show, [Raised] is an exception that leaves the function. *)
Inductive StartOutcome : Type :=
  | Started (fileName : pystr)
  | NoFolderSelected
  | NoMediaFound
  | MissingCredential
  | Raised (e : exc).

(** [start_stream].  The test [not newest_mp4] holds for [None] and for
    the empty string, the two cases of the last branch below. *)
Definition start_stream (os : OS) (st : State) : StartOutcome * State :=
  if py_not (VIDEO_FOLDER st) then
    (NoFolderSelected,
     show (showerror (str "Error") (str "Please select a folder first!")) st)
  else
    match get_newest_mp4 os (VIDEO_FOLDER st) with
    | Raise e => (Raised e, st)
    | Ret newest =>
        match newest with
        | Some ((_ :: _) as newest_mp4) =>
            match
              (config <- load_config (config_file st) ;;
               youtube_url <- dict_get config (str "YOUTUBE_URL") ;;
               stream_key <- dict_get config (str "STREAM_KEY") ;;
               Ret (youtube_url, stream_key))
            with
            | Raise e => (Raised e, st)
            | Ret (youtube_url, stream_key) =>
                if py_not stream_key then
                  (MissingCredential,
                   show (showerror (str "Error")
                           (str "Stream Key is missing! Set it in Settings.")) st)
                else
                  let cmd := ffmpeg_command newest_mp4 youtube_url stream_key in
                  match print_raises os (str "Streaming: " ++ newest_mp4) with
                  | Some e => (Raised e, st)
                  | None =>
                      let st1 := print (str "Streaming: " ++ newest_mp4) st in
                      match Popen_raises os cmd with
                      | Some e => (Raised e, st1)
                      | None =>
                          let fileName := os_path_basename os newest_mp4 in
                          (Started fileName,
                           spawned cmd
                             {| text := str "Streaming: " ++ fileName;
                                fg := str "blue" |} st1)
                      end
                  end
            end
        | _ =>
            (NoMediaFound,
             show (showwarning (str "No MP4 Found")
                     (str "No MP4 files found in the selected folder.")) st)
        end
    end.

Definition stop_stream (st : State) : State :=
  match ffmpeg_process st with
  | Some p =>
      show (showinfo (str "Stream Stopped") (str "The stream has been stopped."))
        (terminated p {| text := str "Stream Stopped"; fg := str "red" |} st)
  | None => st
  end.

(** ** The status the label shows *)

Inductive Status : Type :=
  | Idle
  | Streaming (fileName : pystr)
  | Stopped.

Fixpoint strip_prefix (prefix s : pystr) : option pystr :=
  match prefix, s with
  | [], _ => Some s
  | a :: prefix', b :: s' => if (a =? b)%N then strip_prefix prefix' s' else None
  | _ :: _, [] => None
  end.

(** The status read off the label text: [Streaming: <name>] while a stream
    runs, [Stream Stopped] after a stop, anything else (the start-up text
    [Stream Status: Not Started]) is idle. *)
Definition status (st : State) : Status :=
  let t := text (stream_status_label st) in
  match strip_prefix (str "Streaming: ") t with
  | Some fileName => Streaming fileName
  | None => if pystr_eqb t (str "Stream Stopped") then Stopped else Idle
  end.

(* ================================================================== *)
(** * Predicates and auxiliary definitions of the statements *)
(* ================================================================== *)

(** A Unicode scalar value: a code point that is not a surrogate. *)
Definition scalar_value (c : N) : bool :=
  ((c <? 0x110000) && negb ((0xd800 <=? c) && (c <=? 0xdfff)))%N.

(** Well-formed Unicode text, the strings that UTF-8 can encode. *)
Definition unicode_text (s : pystr) : bool := forallb scalar_value s.

(** A member of the settings whose key and value are well-formed text. *)
Definition text_item (kv : pystr * pystr) : Prop :=
  unicode_text (fst kv) = true /\ unicode_text (snd kv) = true.

Definition is_Ret {A} (r : result A) : bool :=
  match r with Ret _ => true | Raise _ => false end.

(** No high surrogate is directly followed by a low surrogate. *)
Fixpoint no_surrogate_pair (s : pystr) : bool :=
  match s with
  | c :: (c' :: _) as s' =>
      negb (high_surrogate c && low_surrogate c') && no_surrogate_pair s'
  | _ => true
  end.

(** The strings [json.load] reads back as [json.dump] was given them. *)
Definition json_stable (s : pystr) : Prop :=
  Forall code_point s /\ no_surrogate_pair s = true.

Definition stable_item (kv : pystr * pystr) : Prop :=
  json_stable (fst kv) /\ json_stable (snd kv).

Definition keys (d : pydict) : list pystr := map fst d.

(** A dict as Python holds it (no key twice) with stable strings. *)
Definition stable_dict (d : pydict) : Prop :=
  NoDup (keys d) /\ Forall stable_item d.

(** The four digits [u_escape] writes. *)
Definition hex4 (n : N) : pystr := skipn 2 (Json.u_escape n).

(** The two halves [replace] writes for a code point above [0xffff]. *)
Definition surrogate1 (c : N) : N :=
  N.lor 0xd800 (N.land (N.shiftr (c - 0x10000) 10) 0x3ff).
Definition surrogate2 (c : N) : N :=
  N.lor 0xdc00 (N.land (c - 0x10000) 0x3ff).

(** The three shapes of what [replace] writes. *)
Inductive replaced (c : N) : pystr -> Prop :=
  | replaced_short esc :
      Json.BACKSLASH esc = Ret c -> (esc =? 117)%N = false ->
      replaced c [92; esc]%N
  | replaced_bmp : (c < 0x10000)%N -> replaced c (Json.u_escape c)
  | replaced_astral :
      (0x10000 <= c)%N ->
      replaced c (Json.u_escape (surrogate1 c) ++ Json.u_escape (surrogate2 c)).

(** What follows an escaped high surrogate does not read as a low one. *)
Definition no_low_escape_ahead (R : pystr) : Prop :=
  Json.starts_with_u_escape R = true ->
  exists x, Json.decode_uXXXX (skipn 2 R) = Ret x /\ low_surrogate x = false.

(** The checks of [start_stream], in the order the function makes them,
    and the answers of the system on the path that starts a child: the
    line of line 111 is printed and [Popen] does not raise. *)
Record start_passes (os : OS) (st : State)
    (newest_mp4 youtube_url stream_key : pystr) : Prop := {
  folder_selected : py_not (VIDEO_FOLDER st) = false;
  newest_found : get_newest_mp4 os (VIDEO_FOLDER st) = Ret (Some newest_mp4);
  newest_truthy : py_not newest_mp4 = false;
  settings_loaded :
    exists config,
      load_config (config_file st) = Ret config
      /\ dict_get config (str "YOUTUBE_URL") = Ret youtube_url
      /\ dict_get config (str "STREAM_KEY") = Ret stream_key;
  key_present : py_not stream_key = false;
  line_printed : print_raises os (str "Streaming: " ++ newest_mp4) = None;
  child_starts :
    Popen_raises os (ffmpeg_command newest_mp4 youtube_url stream_key) = None
}.

(** The state a successful [start_stream] leaves. *)
Definition started_state (os : OS) (st : State)
    (newest_mp4 youtube_url stream_key : pystr) : State :=
  spawned (ffmpeg_command newest_mp4 youtube_url stream_key)
    {| text := str "Streaming: " ++ os_path_basename os newest_mp4;
       fg := str "blue" |}
    (print (str "Streaming: " ++ newest_mp4) st).

(** The supervisor holds a process exactly when the label shows a stream. *)
Definition handle_iff_streaming (st : State) : Prop :=
  ffmpeg_process st <> None <-> exists fileName, status st = Streaming fileName.

(** The entries of a listing that [get_newest_mp4] keeps. *)
Definition mp4_names (names : list pystr) : list pystr :=
  filter (fun f => endswith f (str ".mp4")) names.

(** ** A small system to run the functions on

    A folder [videos] with an older [a.mp4], a newer [b.mp4] and a text
    file; a folder [locked] that cannot be listed. *)

Definition demo_join (folder f : pystr) : pystr := folder ++ str "/" ++ f.

Fixpoint demo_basename_from (p current : pystr) : pystr :=
  match p with
  | [] => current
  | c :: p' => if (c =? 47)%N then demo_basename_from p' []
               else demo_basename_from p' (current ++ [c])
  end.

Definition demo_os : OS :=
  {| os_listdir := fun folder =>
       if pystr_eqb folder (str "videos")
       then Ret [str "a.mp4"; str "notes.txt"; str "b.mp4"; str "C.MP4"]
       else if pystr_eqb folder (str "empty") then Ret [str "notes.txt"]
       else Raise (OSError 13);
     os_path_getmtime := fun p =>
       if pystr_eqb p (str "videos/a.mp4") then Ret 100%Z
       else if pystr_eqb p (str "videos/b.mp4") then Ret 200%Z
       else Raise (OSError 2);
     os_path_join := demo_join;
     os_path_basename := fun p => demo_basename_from p [];
     print_raises := fun _ => None;
     Popen_raises := fun _ => None |}.

(** The program after start-up on a first run, with [folder] selected. *)
Definition demo_state (folder : pystr) (file : option pystr) : State :=
  {| VIDEO_FOLDER := folder;
     ffmpeg_process := None;
     YOUTUBE_URL := str "rtmp://a.rtmp.youtube.com/live2";
     STREAM_KEY := str "";
     stream_status_label :=
       {| text := str "Stream Status: Not Started"; fg := str "gray" |};
     config_file := file;
     messageboxes := []; Popen_calls := []; terminate_calls := [];
     stdout := [] |}.

Definition demo_settings : option pystr :=
  Some (Json.dumps [(str "YOUTUBE_URL", str "rtmp://host/live2");
                    (str "STREAM_KEY", str "secret123")]).

(* ================================================================== *)
(** * The settings window, the folder label and the main loop *)
(* ================================================================== *)

(** [str.isspace] on one code point, the test [str.strip] uses. *)
Definition isspace (c : N) : bool :=
  (((9 <=? c) && (c <=? 13)) || ((28 <=? c) && (c <=? 32))
   || (c =? 0x85) || (c =? 0xa0) || (c =? 0x1680)
   || ((0x2000 <=? c) && (c <=? 0x200a))
   || (c =? 0x2028) || (c =? 0x2029) || (c =? 0x202f) || (c =? 0x205f)
   || (c =? 0x3000))%N.

Fixpoint lstrip (s : pystr) : pystr :=
  match s with
  | c :: s' => if isspace c then lstrip s' else s
  | [] => []
  end.

Definition rstrip (s : pystr) : pystr := rev (lstrip (rev s)).

(** [s.strip()]. *)
Definition strip (s : pystr) : pystr := rstrip (lstrip s).

(** [open_settings]: what the two entries of a new settings window hold,
    the globals read at start-up. *)
Definition open_settings (st : State) : pystr * pystr :=
  (YOUTUBE_URL st, STREAM_KEY st).

(** [save_and_close], on what the two entries hold when Save is clicked,
    for a settings file that can be written ([save_and_close_failing] is
    the other case).  The boolean tells whether the settings window was
    destroyed. *)
Definition save_and_close (yt_url_entry stream_key_entry : pystr) (st : State)
  : bool * State :=
  let yt_url := strip yt_url_entry in
  let stream_key := strip stream_key_entry in
  if py_not yt_url || py_not stream_key then
    (false, show (showerror (str "Error") (str "Both fields must be filled!")) st)
  else (true, save_config yt_url stream_key st).

(** How writing [CONFIG_FILE] fails: [open] raises and the file is as it
    was, or [open] has emptied the file and the write raises with only the
    first [kept] characters of the text in it. *)
Inductive write_failure : Type :=
  | OpenRaises (e : exc)
  | WriteRaises (kept : nat) (e : exc).

(** [save_config] when the file cannot be written: the exception that
    leaves the function and the state it leaves. *)
Definition save_config_failing (f : write_failure) (yt_url stream_key : pystr)
    (st : State) : exc * State :=
  let config := [(str "YOUTUBE_URL", yt_url); (str "STREAM_KEY", stream_key)] in
  match f with
  | OpenRaises e => (e, st)
  | WriteRaises kept e =>
      (e, write_config_file (firstn kept (Json.dumps config)) st)
  end.

(** [save_and_close] when the file cannot be written: after the same test
    of the entries, the exception of [save_config] leaves the callback and
    the settings window stays. *)
Definition save_and_close_failing (f : write_failure)
    (yt_url_entry stream_key_entry : pystr) (st : State) : option exc * State :=
  let yt_url := strip yt_url_entry in
  let stream_key := strip stream_key_entry in
  if py_not yt_url || py_not stream_key then
    (None, show (showerror (str "Error") (str "Both fields must be filled!")) st)
  else
    (Some (fst (save_config_failing f yt_url stream_key st)),
     snd (save_config_failing f yt_url stream_key st)).

(** The main window: the program state and [folder_label]. *)
Record Window : Type := { program : State; folder_label : Label }.

(** The window as line 182 creates it. *)
Definition main_window (st0 : State) : Window :=
  {| program := st0;
     folder_label := {| text := str "No folder selected"; fg := str "white" |} |}.

(** [select_folder] with its label update. *)
Definition click_select_folder (folder : pystr) (w : Window) : Window :=
  if py_not folder then w
  else
    {| program := select_folder folder (program w);
       folder_label :=
         {| text := str "Selected Folder: " ++ folder; fg := str "green" |} |}.

(** What the user does; the main loop runs the callbacks one after the
    other.  [ClickStart] carries the answers of the system at that moment;
    [ClickSave] is a Save click whose write succeeds, [ClickSaveFails] one
    whose write fails as told.  An exception that leaves a callback is
    reported by Tk and the loop goes on. *)
Inductive action : Type :=
  | ClickSelectFolder (folder : pystr)
  | ClickStart (os : OS)
  | ClickStop
  | ClickSave (yt_url_entry stream_key_entry : pystr)
  | ClickSaveFails (f : write_failure) (yt_url_entry stream_key_entry : pystr).

Definition step (a : action) (w : Window) : Window :=
  match a with
  | ClickSelectFolder folder => click_select_folder folder w
  | ClickStart os =>
      {| program := snd (start_stream os (program w));
         folder_label := folder_label w |}
  | ClickStop =>
      {| program := stop_stream (program w); folder_label := folder_label w |}
  | ClickSave yt_url_entry stream_key_entry =>
      {| program := snd (save_and_close yt_url_entry stream_key_entry (program w));
         folder_label := folder_label w |}
  | ClickSaveFails f yt_url_entry stream_key_entry =>
      {| program :=
           snd (save_and_close_failing f yt_url_entry stream_key_entry (program w));
         folder_label := folder_label w |}
  end.

Definition mainloop (actions : list action) (w : Window) : Window :=
  fold_left (fun w a => step a w) actions w.

(** ** Predicates of the further statements *)

(** A character [json.dump] leaves as it is, or writes in an escape. *)
Definition printable (c : N) : bool := ((32 <=? c) && (c <=? 126))%N.

(** Every handle names a [Popen] call that was made, no process was sent
    [terminate] twice, and the process held was not sent [terminate]. *)
Definition handles_ok (st : State) : Prop :=
  NoDup (terminate_calls st)
  /\ (forall p, In p (terminate_calls st) -> (p < length (Popen_calls st))%nat)
  /\ (forall p, ffmpeg_process st = Some p ->
                (p < length (Popen_calls st))%nat /\ ~ In p (terminate_calls st)).

(** A child that was started, is not held any more and was never sent
    [terminate]. *)
Definition orphan (p : handle) (st : State) : Prop :=
  (p < length (Popen_calls st))%nat
  /\ ffmpeg_process st <> Some p
  /\ ~ In p (terminate_calls st).

(** The settings file loads and holds both members. *)
Definition settings_loadable (st : State) : Prop :=
  exists config youtube_url stream_key,
    load_config (config_file st) = Ret config
    /\ dict_get config (str "YOUTUBE_URL") = Ret youtube_url
    /\ dict_get config (str "STREAM_KEY") = Ret stream_key.

(** Every Save click of the list carries Unicode text, and no write of
    the list fails after [open] has emptied the file. *)
Fixpoint saves_text (actions : list action) : bool :=
  match actions with
  | [] => true
  | ClickSave u k :: actions' => unicode_text u && unicode_text k && saves_text actions'
  | ClickSaveFails (WriteRaises _ _) _ _ :: _ => false
  | _ :: actions' => saves_text actions'
  end.

(** The answer the statement of the selector promises for a listing with a
    matching name: the path of a matching entry whose modification time is
    the greatest among the matching entries. *)
Definition returns_a_newest (os : OS) (folder : pystr) (names : list pystr) : Prop :=
  exists f t,
    In f names /\ endswith f (str ".mp4") = true
    /\ get_newest_mp4 os folder = Ret (Some (os_path_join os folder f))
    /\ os_path_getmtime os (os_path_join os folder f) = Ret t
    /\ forall f' t',
         In f' names -> endswith f' (str ".mp4") = true ->
         os_path_getmtime os (os_path_join os folder f') = Ret t' ->
         (t' <= t)%Z.

(** The folder label names the selected folder. *)
Definition label_names_folder (w : Window) : Prop :=
  match VIDEO_FOLDER (program w) with
  | [] => folder_label w = {| text := str "No folder selected"; fg := str "white" |}
  | _ :: _ =>
      folder_label w
      = {| text := str "Selected Folder: " ++ VIDEO_FOLDER (program w);
           fg := str "green" |}
  end.

(** [json.load] gives [v'] for what [json.dump] writes for [v]. *)
Definition reads_back (v v' : pystr) : Prop :=
  forall rest, Json.scanstring (Json.escape v ++ 34%N :: rest) = Ret (v', rest).

(** What [py_scanstring] makes of the escapes [json.dump] wrote for a
    string: a high surrogate directly followed by a low surrogate comes
    back as the one code point the pair encodes. *)
Fixpoint join_surrogates (s : pystr) : pystr :=
  match s with
  | [] => []
  | c :: s1 =>
      match s1 with
      | c' :: s2 =>
          if high_surrogate c && low_surrogate c'
          then (0x10000 + N.lor (N.shiftl (c - 0xd800) 10) (c' - 0xdc00))%N
               :: join_surrogates s2
          else c :: join_surrogates s1
      | [] => [c]
      end
  end.

(** Any Python [str]: every code point is below [0x110000]. *)
Definition code_points (s : pystr) : bool := forallb (fun c => c <? 0x110000)%N s.

Definition reads_item (kv kv' : pystr * pystr) : Prop :=
  reads_back (fst kv) (fst kv') /\ reads_back (snd kv) (snd kv').

(** The same system as [demo_os] with other files beside the two videos. *)
Definition demo_os_other_files : OS :=
  {| os_listdir := fun folder =>
       if pystr_eqb folder (str "videos")
       then Ret [str "readme"; str "a.mp4"; str "b.mp4"]
       else Raise (OSError 13);
     os_path_getmtime := os_path_getmtime demo_os;
     os_path_join := os_path_join demo_os;
     os_path_basename := os_path_basename demo_os;
     print_raises := fun _ => None;
     Popen_raises := fun _ => None |}.

(** A folder with three videos, two of them equally new, and a system
    where [ffmpeg] cannot be started. *)
Definition demo_os_ties : OS :=
  {| os_listdir := fun _ => Ret [str "a.mp4"; str "b.mp4"; str "c.mp4"];
     os_path_getmtime := fun p =>
       if pystr_eqb p (str "videos/a.mp4") then Ret 100%Z
       else if pystr_eqb p (str "videos/b.mp4") then Ret 200%Z
       else if pystr_eqb p (str "videos/c.mp4") then Ret 200%Z
       else Raise (OSError 2);
     os_path_join := demo_join;
     os_path_basename := fun p => demo_basename_from p [];
     print_raises := fun _ => None;
     Popen_raises := fun _ => Some (OSError 2) |}.

(** A folder whose newest video has a name the standard output cannot
    write: [print] takes ASCII lines only. *)
Definition demo_os_ascii_stdout : OS :=
  {| os_listdir := fun _ => Ret [str "a.mp4"; [0x65e5; 0x672c]%N ++ str ".mp4"];
     os_path_getmtime := fun p =>
       if pystr_eqb p (str "videos/a.mp4") then Ret 100%Z else Ret 200%Z;
     os_path_join := demo_join;
     os_path_basename := fun p => demo_basename_from p [];
     print_raises := fun line =>
       if forallb (fun c => c <? 128)%N line then None else Some UnicodeEncodeError;
     Popen_raises := fun _ => None |}.

(** A folder where the second video cannot be examined. *)
Definition demo_os_dangling : OS :=
  {| os_listdir := fun _ => Ret [str "a.mp4"; str "x.mp4"; str "b.mp4"];
     os_path_getmtime := os_path_getmtime demo_os;
     os_path_join := demo_join;
     os_path_basename := fun p => demo_basename_from p [];
     print_raises := fun _ => None;
     Popen_raises := fun _ => None |}.

(* ================================================================== *)
(** * [json.load] after [json.dump] *)
(* ================================================================== *)

Section JsonFacts.
Import Json.
Local Open Scope N_scope.

Lemma hexval_hexdigit k : k < 16 -> hexval (hexdigit k) = Some k.
Proof.
  intros H.
  assert (E : In k (map N.of_nat (seq 0 16))).
  { apply in_map_iff. exists (N.to_nat k). split; [lia|]. apply in_seq. lia. }
  simpl in E.
  repeat (destruct E as [<- | E]; [reflexivity|]). destruct E.
Qed.

Lemma nibble_lt n k : N.land (N.shiftr n k) 15 < 16.
Proof.
  change 15 with (N.ones 4). rewrite N.land_ones. apply N.mod_lt. discriminate.
Qed.

Lemma nibbles n : n < 0x10000 ->
  ((N.land (N.shiftr n 12) 15 * 16 + N.land (N.shiftr n 8) 15) * 16
    + N.land (N.shiftr n 4) 15) * 16 + N.land n 15 = n.
Proof.
  intros H. change 15 with (N.ones 4). rewrite !N.land_ones, !N.shiftr_div_pow2.
  change (2^12) with 4096. change (2^8) with 256. change (2^4) with 16.
  zify. Z.to_euclidean_division_equations. lia.
Qed.

Lemma u_escape_hex4 n : u_escape n = 92 :: 117 :: hex4 n.
Proof. reflexivity. Qed.

Lemma decode_hex4 n rest : n < 0x10000 -> decode_uXXXX (hex4 n ++ rest) = Ret n.
Proof.
  intros H. unfold hex4, u_escape, decode_uXXXX. cbn [skipn app].
  rewrite !hexval_hexdigit by (apply nibble_lt || apply (nibble_lt n 0)).
  rewrite nibbles by exact H. reflexivity.
Qed.

Lemma skipn_hex4 n rest : skipn 4 (hex4 n ++ rest) = rest.
Proof. reflexivity. Qed.

Lemma scan_u_escape_bmp c R :
  c < 0x10000 -> (high_surrogate c = true -> no_low_escape_ahead R) ->
  scan_u_escape (hex4 c ++ R) = Ret (c, R).
Proof.
  intros Hc Hnext. unfold scan_u_escape.
  rewrite decode_hex4 by exact Hc. cbn [bind]. rewrite skipn_hex4.
  destruct (high_surrogate c) eqn:Hh; [|reflexivity].
  destruct (starts_with_u_escape R) eqn:Hs; [|reflexivity].
  destruct (Hnext eq_refl Hs) as (x & Hx & Hlow).
  cbn [andb]. rewrite Hx. cbn [bind]. rewrite Hlow. reflexivity.
Qed.

Lemma lor_shiftl_low h l k : l < 2 ^ k -> N.lor (N.shiftl h k) l = h * 2 ^ k + l.
Proof.
  intros Hl. rewrite <- N.shiftl_mul_pow2.
  assert (D : N.land (N.shiftl h k) l = 0).
  { apply N.bits_inj_0. intros i. rewrite N.land_spec.
    destruct (N.lt_ge_cases i k) as [Hi | Hi].
    - rewrite N.shiftl_spec_low by exact Hi. reflexivity.
    - destruct (N.eq_dec l 0) as [-> | Hz]; [rewrite N.bits_0; apply andb_false_r|].
      rewrite (N.bits_above_log2 l i), andb_false_r; [reflexivity|].
      apply N.lt_le_trans with k; [|exact Hi].
      apply N.log2_lt_pow2; [lia | exact Hl]. }
  rewrite N.add_nocarry_lxor by exact D. symmetry. apply N.lxor_lor. exact D.
Qed.

Lemma surrogate1_eq c : 0x10000 <= c -> c < 0x110000 ->
  surrogate1 c = 0xd800 + (c - 0x10000) / 1024.
Proof.
  intros Hlo Hhi. unfold surrogate1.
  change 0x3ff with (N.ones 10). rewrite N.land_ones, N.shiftr_div_pow2.
  change (2 ^ 10) with 1024.
  rewrite N.mod_small by (zify; Z.to_euclidean_division_equations; lia).
  change 0xd800 with (N.shiftl 54 10). rewrite lor_shiftl_low; [reflexivity|].
  change (2 ^ 10) with 1024. zify; Z.to_euclidean_division_equations; lia.
Qed.

Lemma surrogate2_eq c : surrogate2 c = 0xdc00 + (c - 0x10000) mod 1024.
Proof.
  unfold surrogate2. change 0x3ff with (N.ones 10). rewrite N.land_ones.
  change (2 ^ 10) with 1024.
  change 0xdc00 with (N.shiftl 55 10). rewrite lor_shiftl_low; [reflexivity|].
  change (2 ^ 10) with 1024. apply N.mod_lt. discriminate.
Qed.

Lemma surrogate1_range c : 0x10000 <= c -> c < 0x110000 ->
  0xd800 <= surrogate1 c <= 0xdbff.
Proof.
  intros Hlo Hhi. rewrite surrogate1_eq by assumption.
  zify; Z.to_euclidean_division_equations; lia.
Qed.

Lemma surrogate2_range c : 0xdc00 <= surrogate2 c <= 0xdfff.
Proof.
  rewrite surrogate2_eq. zify; Z.to_euclidean_division_equations; lia.
Qed.

Lemma surrogates_join c : 0x10000 <= c -> c < 0x110000 ->
  0x10000 + N.lor (N.shiftl (surrogate1 c - 0xd800) 10) (surrogate2 c - 0xdc00) = c.
Proof.
  intros Hlo Hhi. rewrite surrogate1_eq, surrogate2_eq by assumption.
  rewrite (N.add_comm 0xd800), (N.add_comm 0xdc00), !N.add_sub.
  rewrite lor_shiftl_low by (change (2 ^ 10) with 1024; apply N.mod_lt; discriminate).
  change (2 ^ 10) with 1024.
  zify; Z.to_euclidean_division_equations; lia.
Qed.

Lemma replace_astral c : (c <? 0x10000) = false -> ESCAPE_ASCII c = true ->
  replace c = u_escape (surrogate1 c) ++ u_escape (surrogate2 c).
Proof.
  intros Hc _. unfold replace.
  apply N.ltb_ge in Hc.
  repeat match goal with
  | |- context [?a =? ?b] => destruct (N.eqb_spec a b); [lia|]
  end.
  destruct (N.ltb_spec c 0x10000); [lia|]. reflexivity.
Qed.

Lemma scan_u_escape_astral c R :
  0x10000 <= c -> c < 0x110000 ->
  scan_u_escape (hex4 (surrogate1 c) ++ u_escape (surrogate2 c) ++ R) = Ret (c, R).
Proof.
  intros Hlo Hhi. unfold scan_u_escape.
  pose proof (surrogate1_range c Hlo Hhi) as H1.
  pose proof (surrogate2_range c) as H2.
  rewrite decode_hex4 by lia. cbn [bind]. rewrite skipn_hex4.
  assert (Hh : high_surrogate (surrogate1 c) = true).
  { unfold high_surrogate. apply andb_true_intro. split; apply N.leb_le; lia. }
  rewrite Hh, u_escape_hex4. cbn [starts_with_u_escape app andb N.eqb Pos.eqb skipn].
  rewrite decode_hex4 by lia. cbn [bind].
  assert (Hl : low_surrogate (surrogate2 c) = true).
  { unfold low_surrogate. apply andb_true_intro. split; apply N.leb_le; lia. }
  rewrite Hl, surrogates_join by assumption. reflexivity.
Qed.

Lemma ESCAPE_ASCII_false c : ESCAPE_ASCII c = false ->
  (c =? 34) = false /\ (c =? 92) = false /\ (c <? 32) = false.
Proof.
  unfold ESCAPE_ASCII. intros H.
  apply orb_false_elim in H as [H H3]. apply orb_false_elim in H as [H1 H2].
  apply negb_false_iff, andb_true_iff in H3 as [H3 _]. apply N.leb_le in H3.
  repeat split; try assumption. apply N.ltb_ge. exact H3.
Qed.

Lemma replace_replaced c : ESCAPE_ASCII c = true -> replaced c (replace c).
Proof.
  intros _. unfold replace.
  repeat match goal with
  | |- context [if ?a =? ?b then _ else _] =>
      destruct (N.eqb_spec a b) as [-> | ?];
      [apply replaced_short; reflexivity|]
  end.
  destruct (N.ltb_spec c 0x10000).
  - apply replaced_bmp. assumption.
  - apply replaced_astral. assumption.
Qed.

Lemma escape_no_low_ahead c s rest :
  Forall code_point s -> no_surrogate_pair (c :: s) = true ->
  high_surrogate c = true ->
  no_low_escape_ahead (escape s ++ 34 :: rest).
Proof.
  intros Hcp Hpair Hhigh Hstart.
  destruct s as [|c' s']; [discriminate Hstart|].
  cbn [no_surrogate_pair] in Hpair. rewrite Hhigh in Hpair.
  apply andb_true_iff in Hpair as [Hlow _]. apply negb_true_iff in Hlow.
  cbn [andb] in Hlow.
  apply Forall_inv in Hcp. unfold code_point in Hcp.
  unfold escape in *. cbn [flat_map] in *. rewrite <- app_assoc in *.
  destruct (ESCAPE_ASCII c') eqn:He.
  - destruct (replace_replaced c' He) as [esc Hb Hu | Hlt | Hge].
    + cbn in Hstart. rewrite Hu in Hstart. discriminate.
    + exists c'. split; [|exact Hlow].
      rewrite u_escape_hex4. cbn [app skipn].
      apply decode_hex4. exact Hlt.
    + exists (surrogate1 c'). pose proof (surrogate1_range c' Hge Hcp).
      split.
      * rewrite u_escape_hex4, <- app_assoc. cbn [app skipn].
        apply decode_hex4. lia.
      * unfold low_surrogate. apply andb_false_iff. left. apply N.leb_gt. lia.
  - apply ESCAPE_ASCII_false in He as (_ & H92 & _).
    cbn in Hstart. rewrite H92 in Hstart. discriminate.
Qed.

Lemma scanstring_loop_escape s : forall rest fuel,
  Forall code_point s -> no_surrogate_pair s = true ->
  (length s < fuel)%nat ->
  scanstring_loop fuel (escape s ++ 34 :: rest) = Ret (s, rest).
Proof.
  induction s as [|c s IH]; intros rest fuel Hcp Hpair Hfuel.
  - destruct fuel; [inversion Hfuel|]. reflexivity.
  - destruct fuel as [|fuel]; [inversion Hfuel|].
    cbn [length] in Hfuel. apply PeanoNat.lt_S_n in Hfuel.
    assert (Hpair' : no_surrogate_pair s = true).
    { destruct s; [reflexivity|]. cbn [no_surrogate_pair] in Hpair.
      apply andb_true_iff in Hpair. apply Hpair. }
    pose proof (escape_no_low_ahead c s rest (Forall_inv_tail Hcp) Hpair) as Hahead.
    specialize (IH rest fuel (Forall_inv_tail Hcp) Hpair' Hfuel).
    apply Forall_inv in Hcp. unfold code_point in Hcp.
    unfold escape in *. cbn [flat_map]. rewrite <- app_assoc.
    destruct (ESCAPE_ASCII c) eqn:He.
    + destruct (replace_replaced c He) as [esc Hb Hu | Hlt | Hge].
      * cbn [app scanstring_loop]. cbn [N.eqb Pos.eqb]. rewrite Hu, Hb. cbn [bind]. rewrite IH. reflexivity.
      * rewrite u_escape_hex4. cbn [app scanstring_loop N.eqb Pos.eqb].
        rewrite scan_u_escape_bmp by assumption.
        cbn [bind]. rewrite IH. reflexivity.
      * rewrite (u_escape_hex4 (surrogate1 c)), <- app_assoc.
        cbn [app scanstring_loop N.eqb Pos.eqb].
        rewrite scan_u_escape_astral by assumption.
        cbn [bind]. rewrite IH. reflexivity.
    + apply ESCAPE_ASCII_false in He as (H34 & H92 & H32).
      cbn [app scanstring_loop]. rewrite H34, H92, H32, IH. reflexivity.
Qed.

Lemma length_escape s : (length s <= length (escape s))%nat.
Proof.
  induction s as [|c s IH]; [apply le_n|].
  unfold escape in *. cbn [flat_map]. rewrite length_app. cbn [length].
  assert (1 <= length (if ESCAPE_ASCII c then replace c else [c]))%nat; [|lia].
  destruct (ESCAPE_ASCII c) eqn:He; [|apply le_n].
  destruct (replace_replaced c He); cbn; lia.
Qed.

Lemma scanstring_escape s rest : json_stable s ->
  scanstring (escape s ++ 34 :: rest) = Ret (s, rest).
Proof.
  intros [Hcp Hpair]. unfold scanstring.
  apply scanstring_loop_escape; try assumption.
  rewrite length_app. pose proof (length_escape s). lia.
Qed.

Lemma length_iterencode_items first d :
  (length d <= length (iterencode_items first d))%nat.
Proof.
  revert first. induction d as [|[k v] d IH]; intros first; [apply le_n|].
  cbn [iterencode_items]. specialize (IH false).
  unfold py_encode_basestring_ascii. rewrite !length_app. cbn [length]. lia.
Qed.

Lemma JSONObject_loop_items d : forall k v acc fuel after,
  Forall stable_item ((k, v) :: d) ->
  (length d < fuel)%nat ->
  JSONObject_loop fuel
    (escape k ++ 34 :: 58 :: 32 :: 34 :: escape v ++ 34
       :: iterencode_items false d ++ 125 :: after) acc
  = Ret (rev acc ++ (k, v) :: d, after).
Proof.
  induction d as [|[k' v'] d IH]; intros k v acc fuel after Hst Hfuel;
    (destruct fuel as [|fuel]; [inversion Hfuel|]);
    pose proof (Forall_inv Hst) as [Hk Hv]; cbn [fst snd] in Hk, Hv;
    cbn [JSONObject_loop];
    rewrite scanstring_escape by exact Hk; cbn [bind skip_ws is_ws N.eqb Pos.eqb orb negb scan_once];
    rewrite scanstring_escape by exact Hv; cbn [bind].
  - cbn [iterencode_items app skip_ws is_ws N.eqb Pos.eqb orb negb rev]. reflexivity.
  - cbn [iterencode_items app]. unfold py_encode_basestring_ascii.
    repeat (rewrite <- app_assoc; cbn [app]).
    cbn [skip_ws is_ws N.eqb Pos.eqb orb negb].
    rewrite IH.
    + cbn [rev]. rewrite <- app_assoc. reflexivity.
    + apply (Forall_inv_tail Hst).
    + cbn [length] in Hfuel. lia.
Qed.

Lemma pystr_eqb_eq a b : pystr_eqb a b = true <-> a = b.
Proof. unfold pystr_eqb. destruct (list_eq_dec N.eq_dec a b); split; congruence. Qed.

Lemma dict_set_fresh k v d : ~ In k (keys d) -> dict_set k v d = d ++ [(k, v)].
Proof.
  induction d as [|[k' v'] d IH]; intros Hin; [reflexivity|].
  cbn [dict_set]. destruct (pystr_eqb k' k) eqn:E.
  - apply pystr_eqb_eq in E. destruct Hin. left. exact E.
  - cbn [app]. rewrite IH; [reflexivity|]. intros H. apply Hin. right. exact H.
Qed.

Lemma fold_dict_set l : forall acc, NoDup (keys (acc ++ l)) ->
  fold_left (fun d kv => dict_set (fst kv) (snd kv) d) l acc = acc ++ l.
Proof.
  induction l as [|[k v] l IH]; intros acc Hnd; cbn [fold_left].
  - symmetry. apply app_nil_r.
  - cbn [fst snd]. rewrite dict_set_fresh.
    + rewrite IH; rewrite <- app_assoc; [reflexivity | exact Hnd].
    + unfold keys in *. rewrite map_app in Hnd. cbn [map fst] in Hnd.
      apply NoDup_remove_2 in Hnd. intros H. apply Hnd. apply in_or_app. left. exact H.
Qed.

Lemma dict_of_pairs_NoDup d : NoDup (keys d) -> dict_of_pairs d = d.
Proof. intros H. unfold dict_of_pairs. apply (fold_dict_set d []). exact H. Qed.

Lemma loads_dumps d : stable_dict d -> loads (dumps d) = Ret d.
Proof.
  intros [Hnd Hst]. destruct d as [|[k v] d]; [reflexivity|].
  unfold dumps, loads. cbn [iterencode_items app].
  unfold py_encode_basestring_ascii.
  repeat (rewrite <- app_assoc; cbn [app]).
  cbn [skip_ws is_ws N.eqb Pos.eqb orb]. unfold JSONObject.
  cbn [skip_ws is_ws N.eqb Pos.eqb orb].
  rewrite (JSONObject_loop_items d k v [] _ []).
  - cbn [bind rev app skip_ws]. rewrite dict_of_pairs_NoDup by exact Hnd. reflexivity.
  - exact Hst.
  - rewrite !length_app. cbn [length]. rewrite !length_app. cbn [length].
    rewrite length_app.
    pose proof (length_iterencode_items false d). lia.
Qed.

(** ** The fuel never runs out *)

Lemma decode_uXXXX_raise s e : decode_uXXXX s = Raise e -> e = JSONDecodeError.
Proof.
  unfold decode_uXXXX.
  destruct s as [|a [|b [|c [|d s]]]]; try (intros [= <-]; reflexivity).
  destruct (hexval a), (hexval b), (hexval c), (hexval d);
    intros [= <-] || intros [=]; reflexivity.
Qed.

Lemma length_skipn_le {A} n (l : list A) : (length (skipn n l) <= length l)%nat.
Proof. rewrite length_skipn. lia. Qed.

Lemma scan_u_escape_spec s :
  match scan_u_escape s with
  | Ret (_, tl) => (length tl <= length s)%nat
  | Raise e => e = JSONDecodeError
  end.
Proof.
  unfold scan_u_escape.
  destruct (decode_uXXXX s) as [uni|e] eqn:E1; cbn [bind];
    [|apply (decode_uXXXX_raise s e E1)].
  destruct (high_surrogate uni && starts_with_u_escape (skipn 4 s));
    [|apply length_skipn_le].
  destruct (decode_uXXXX (skipn 2 (skipn 4 s))) as [uni2|e] eqn:E2; cbn [bind];
    [|apply (decode_uXXXX_raise _ e E2)].
  destruct (low_surrogate uni2).
  - etransitivity; apply length_skipn_le.
  - apply length_skipn_le.
Qed.

Lemma BACKSLASH_raise esc e : BACKSLASH esc = Raise e -> e = JSONDecodeError.
Proof.
  unfold BACKSLASH.
  repeat match goal with
  | |- context [if ?b then _ else _] => destruct b; [discriminate|]
  end.
  intros [= <-]. reflexivity.
Qed.

Lemma scanstring_loop_spec fuel : forall s, (length s < fuel)%nat ->
  match scanstring_loop fuel s with
  | Ret (_, tl) => (length tl < length s)%nat
  | Raise e => e = JSONDecodeError
  end.
Proof.
  induction fuel as [|fuel IH]; intros s Hfuel; [inversion Hfuel|].
  destruct s as [|c rest]; [reflexivity|].
  cbn [scanstring_loop length] in *.
  destruct (c =? 34); [apply le_n|].
  destruct (c =? 92).
  - destruct rest as [|esc rest']; [reflexivity|]. cbn [length] in *.
    assert (Hstep : match (if esc =? 117 then scan_u_escape rest'
                           else bind (BACKSLASH esc) (fun char => Ret (char, rest')))
                    with
                    | Ret (_, tl) => (length tl <= length rest')%nat
                    | Raise e => e = JSONDecodeError
                    end).
    { destruct (esc =? 117); [apply scan_u_escape_spec|].
      destruct (BACKSLASH esc) eqn:Eb; cbn [bind]; [apply le_n|].
      apply (BACKSLASH_raise esc e Eb). }
    destruct (if esc =? 117 then _ else _) as [[char tl]|e]; cbn [bind];
      [|exact Hstep].
    specialize (IH tl). destruct (scanstring_loop fuel tl) as [[r after]|e];
      cbn [bind]; lia || (apply IH; lia).
  - destruct (c <? 32); [reflexivity|].
    specialize (IH rest). destruct (scanstring_loop fuel rest) as [[r after]|e];
      cbn [bind]; lia || (apply IH; lia).
Qed.

Lemma scanstring_spec s :
  match scanstring s with
  | Ret (_, tl) => (length tl < length s)%nat
  | Raise e => e = JSONDecodeError
  end.
Proof. apply scanstring_loop_spec. apply le_n. Qed.

Lemma length_skip_ws s : (length (skip_ws s) <= length s)%nat.
Proof.
  induction s as [|c s IH]; [apply le_n|]. cbn [skip_ws].
  destruct (is_ws c); [cbn [length]; lia | apply le_n].
Qed.

Lemma scan_once_spec s :
  match scan_once s with
  | Ret (_, tl) => (length tl < length s)%nat
  | Raise e => e <> FuelExhausted
  end.
Proof.
  destruct s as [|c rest]; [discriminate|]. cbn [scan_once].
  destruct (c =? 34).
  - pose proof (scanstring_spec rest) as H.
    destruct (scanstring rest) as [[r tl]|e]; [cbn [length]; lia|].
    subst e. discriminate.
  - destruct (starts_other_value c); discriminate.
Qed.

Lemma JSONObject_loop_fuel fuel : forall s pairs, (length s < fuel)%nat ->
  JSONObject_loop fuel s pairs <> Raise FuelExhausted.
Proof.
  induction fuel as [|fuel IH]; intros s pairs Hfuel; [inversion Hfuel|].
  cbn [JSONObject_loop].
  pose proof (scanstring_spec s) as H1.
  destruct (scanstring s) as [[key s1]|e]; cbn [bind];
    [|subst e; discriminate].
  pose proof (length_skip_ws s1) as W1.
  destruct (skip_ws s1) as [|colon s2]; [discriminate|].
  destruct (negb (colon =? 58)); [discriminate|].
  pose proof (scan_once_spec (skip_ws s2)) as H2.
  pose proof (length_skip_ws s2) as W2.
  destruct (scan_once (skip_ws s2)) as [[value s3]|e]; cbn [bind];
    [|congruence].
  pose proof (length_skip_ws s3) as W3.
  destruct (skip_ws s3) as [|nextchar s4]; [discriminate|].
  destruct (nextchar =? 125); [discriminate|].
  destruct (negb (nextchar =? 44)); [discriminate|].
  pose proof (length_skip_ws s4) as W4.
  destruct (skip_ws s4) as [|q s5]; [discriminate|].
  destruct (q =? 34); [|discriminate].
  apply IH. cbn [length] in *. lia.
Qed.

Lemma loads_fuel_enough s : loads s <> Raise FuelExhausted.
Proof.
  unfold loads. destruct (skip_ws s) as [|c rest]; [discriminate|].
  destruct (c =? 123).
  - unfold JSONObject. destruct (skip_ws rest) as [|nextchar s1]; [discriminate|].
    destruct (nextchar =? 125).
    + cbn [bind]. destruct (skip_ws s1); discriminate.
    + destruct (nextchar =? 34); [|discriminate].
      pose proof (JSONObject_loop_fuel (S (length s1)) s1 [] (le_n _)) as H.
      destruct (JSONObject_loop (S (length s1)) s1 []) as [[pairs rest']|e];
        cbn [bind]; [|congruence].
      destruct (skip_ws rest'); discriminate.
  - destruct ((c =? 34) || starts_other_value c); discriminate.
Qed.

End JsonFacts.

(* ================================================================== *)
(** * The settings store *)
(* ================================================================== *)

Lemma no_surrogate_pair_cons c c' s :
  no_surrogate_pair (c :: c' :: s)
  = negb (high_surrogate c && low_surrogate c') && no_surrogate_pair (c' :: s).
Proof. reflexivity. Qed.

Lemma unicode_text_stable s : unicode_text s = true -> json_stable s.
Proof.
  unfold unicode_text, json_stable.
  induction s as [|c s IH]; intros H; [split; [constructor | reflexivity]|].
  cbn [forallb] in H. apply andb_true_iff in H as [Hc Hs].
  destruct (IH Hs) as [IH1 IH2].
  unfold scalar_value in Hc. apply andb_true_iff in Hc as [Hlt Hns].
  apply N.ltb_lt in Hlt. apply negb_true_iff in Hns.
  split; [constructor; assumption|].
  destruct s as [|c' s']; [reflexivity|].
  rewrite no_surrogate_pair_cons, IH2, andb_true_r.
  apply negb_true_iff, andb_false_iff. left.
  unfold high_surrogate. apply andb_false_iff in Hns as [H | H].
  - rewrite H. reflexivity.
  - apply andb_false_iff. right. apply N.leb_gt. apply N.leb_gt in H. lia.
Qed.

Lemma settings_stable yt_url stream_key :
  json_stable yt_url -> json_stable stream_key ->
  stable_dict [(str "YOUTUBE_URL", yt_url); (str "STREAM_KEY", stream_key)].
Proof.
  intros Hu Hk. split.
  - cbn. repeat constructor; cbn; intuition discriminate.
  - constructor; [split; [|exact Hu] | constructor; [split; [|exact Hk] | constructor]];
      cbn [fst]; apply unicode_text_stable; reflexivity.
Qed.

(** What [save_config] writes, [load_config] reads back. *)
Lemma load_config_save_config yt_url stream_key st :
  json_stable yt_url -> json_stable stream_key ->
  load_config (config_file (save_config yt_url stream_key st))
  = Ret [(str "YOUTUBE_URL", yt_url); (str "STREAM_KEY", stream_key)].
Proof.
  intros Hu Hk. cbn [save_config write_config_file config_file load_config].
  apply loads_dumps. apply settings_stable; assumption.
Qed.

(** [load_config] does not create the file: the module body does, once. *)
Remark load_config_missing_file : load_config None = Raise FileNotFoundError.
Proof. reflexivity. Qed.

(** A [str] that holds a surrogate pair as two code points is written as
    two [\u] escapes, which [json.load] reads as one code point. *)
Remark surrogate_pair_joined st :
  load_config (config_file (save_config [0xd83d; 0xde00]%N (str "k") st))
  = Ret [(str "YOUTUBE_URL", [0x1f600]%N); (str "STREAM_KEY", str "k")].
Proof. reflexivity. Qed.

(** The file the program writes holds printable ASCII only. *)
Example dumps_default_config :
  Json.dumps default_config
  = str "{" ++ [34%N] ++ str "YOUTUBE_URL" ++ [34%N] ++ str ": " ++ [34%N]
    ++ str "rtmp://a.rtmp.youtube.com/live2" ++ [34%N] ++ str ", " ++ [34%N]
    ++ str "STREAM_KEY" ++ [34%N] ++ str ": " ++ [34%N; 34%N] ++ str "}".
Proof. reflexivity. Qed.

Example loads_dumps_escapes :
  let s := [0x1F600; 233; 10; 34; 92; 0xd800; 65; 0xdc00; 127]%N in
  Json.loads (Json.dumps [(str "YOUTUBE_URL", s); (str "STREAM_KEY", [])])
  = Ret [(str "YOUTUBE_URL", s); (str "STREAM_KEY", [])].
Proof. vm_compute. reflexivity. Qed.

(** Hand-written files: extra white space is accepted, a later member
    replaces an earlier one with the same key, a number is outside the
    fragment, a missing brace is an error. *)
Example loads_hand_written :
  Json.loads (str " { " ++ [34%N] ++ str "a" ++ [34%N] ++ str " : " ++ [34%N]
              ++ str "1" ++ [34%N] ++ str " , " ++ [34%N] ++ str "a" ++ [34%N]
              ++ str ":" ++ [34%N] ++ str "2" ++ [34%N] ++ str "} ")
  = Ret [(str "a", str "2")]
  /\ Json.loads (str "{" ++ [34%N] ++ str "a" ++ [34%N] ++ str ": 1}")
     = Raise NotModelled
  /\ Json.loads (str "{" ++ [34%N] ++ str "a" ++ [34%N] ++ str ": " ++ [34%N]
                 ++ str "1" ++ [34%N])
     = Raise JSONDecodeError.
Proof. repeat split; reflexivity. Qed.

(** C7. Saving a settings record and loading it again gives the record
    back: for every destination URL and stream key that are Unicode text
    (the key may be empty), [load_config] after [save_config] returns the
    dict with exactly these two values. *)
Theorem save_then_load_is_identity yt_url stream_key st :
  unicode_text yt_url = true -> unicode_text stream_key = true ->
  load_config (config_file (save_config yt_url stream_key st))
  = Ret [(str "YOUTUBE_URL", yt_url); (str "STREAM_KEY", stream_key)].
Proof.
  intros Hu Hk. apply load_config_save_config; apply unicode_text_stable; assumption.
Qed.

Lemma save_then_load_is_identity_witness :
  load_config
    (config_file (save_config (str "rtmp://host/live2") (str "")
                    (demo_state (str "videos") None)))
  = Ret [(str "YOUTUBE_URL", str "rtmp://host/live2"); (str "STREAM_KEY", str "")].
Proof. apply save_then_load_is_identity; reflexivity. Defined.

(** C8. On a first run, when no settings file exists, the start-up load
    returns the default record (the YouTube live-ingest base URL and an empty
    stream key), and afterwards the settings file exists and holds exactly
    the JSON text of that default record. *)
Theorem first_run_loads_and_writes_defaults :
  let file := create_config_file None in
  load_config file = Ret default_config
  /\ default_config
     = [(str "YOUTUBE_URL", str "rtmp://a.rtmp.youtube.com/live2");
        (str "STREAM_KEY", [])]
  /\ file = Some (Json.dumps default_config)
  /\ exists st0,
       module_init None = Ret st0
       /\ YOUTUBE_URL st0 = str "rtmp://a.rtmp.youtube.com/live2"
       /\ STREAM_KEY st0 = []
       /\ config_file st0 = Some (Json.dumps default_config).
Proof.
  repeat split; try reflexivity.
  eexists. repeat split; reflexivity.
Qed.

(* ================================================================== *)
(** * The newest-file selector *)
(* ================================================================== *)

Example endswith_examples :
  endswith (str "clip.mp4") (str ".mp4") = true
  /\ endswith (str "CLIP.MP4") (str ".mp4") = false
  /\ endswith (str "clip.mp4.part") (str ".mp4") = false
  /\ endswith (str "mp4") (str ".mp4") = false
  /\ endswith (str ".mp4") (str ".mp4") = true.
Proof. repeat split; reflexivity. Qed.

Section Max.
Context {A : Type} (key : A -> result Z).

Lemma max_loop_spec l : forall maxitem maxval,
  key maxitem = Ret maxval ->
  forallb (fun x => is_Ret (key x)) l = true ->
  exists r t,
    max_loop key maxitem maxval l = Ret r
    /\ In r (maxitem :: l) /\ key r = Ret t /\ (maxval <= t)%Z
    /\ forall x tx, In x l -> key x = Ret tx -> (tx <= t)%Z.
Proof.
  induction l as [|item l IH]; intros maxitem maxval Hm Hall.
  - exists maxitem, maxval. repeat split; [left; reflexivity | exact Hm | lia |].
    intros x tx [].
  - cbn [forallb] in Hall. apply andb_true_iff in Hall as [Hitem Hall].
    cbn [max_loop]. destruct (key item) as [val|e] eqn:Hk; [|discriminate Hitem].
    cbn [bind]. destruct (Z.ltb_spec maxval val) as [Hlt | Hge].
    + destruct (IH item val Hk Hall) as (r & t & Hr & Hin & Hkr & Hle & Hmax).
      exists r, t. repeat split; [exact Hr | | exact Hkr | lia |].
      * right. exact Hin.
      * intros x tx [<- | Hx] Hkx; [|eapply Hmax; eassumption].
        rewrite Hk in Hkx. injection Hkx as <-. exact Hle.
    + destruct (IH maxitem maxval Hm Hall) as (r & t & Hr & Hin & Hkr & Hle & Hmax).
      exists r, t. repeat split; [exact Hr | | exact Hkr | exact Hle |].
      * destruct Hin as [<- | Hin]; [left; reflexivity | right; right; exact Hin].
      * intros x tx [<- | Hx] Hkx; [|eapply Hmax; eassumption].
        rewrite Hk in Hkx. injection Hkx as <-. lia.
Qed.

Lemma py_max_spec l :
  l <> [] -> forallb (fun x => is_Ret (key x)) l = true ->
  exists r t,
    py_max key l = Ret r /\ In r l /\ key r = Ret t
    /\ forall x tx, In x l -> key x = Ret tx -> (tx <= t)%Z.
Proof.
  destruct l as [|item l]; [congruence|]. intros _ Hall.
  cbn [forallb] in Hall. apply andb_true_iff in Hall as [Hitem Hall].
  cbn [py_max]. destruct (key item) as [val|e] eqn:Hk; [|discriminate Hitem].
  cbn [bind].
  destruct (max_loop_spec l item val Hk Hall) as (r & t & Hr & Hin & Hkr & Hle & Hmax).
  exists r, t. repeat split; [exact Hr | exact Hin | exact Hkr |].
  intros x tx [<- | Hx] Hkx; [|eapply Hmax; eassumption].
  rewrite Hk in Hkx. injection Hkx as <-. exact Hle.
Qed.

(** An item whose key cannot be computed makes [max] raise. *)
Lemma py_max_first_raises item l e : key item = Raise e -> py_max key (item :: l) = Raise e.
Proof. intros H. cbn [py_max]. rewrite H. reflexivity. Qed.

End Max.

(** C2, as amended.  For a folder path that is not empty and can be
    listed, [get_newest_mp4] looks at the names of the listing that end in
    [.mp4] (compared code point by code point) and at nothing else.  When
    no name matches, it returns [None] and raises nothing.  When some name
    matches and [os.path.getmtime] answers for every matching entry, it
    returns the path of a matching entry whose modification time is the
    greatest among the matching entries.  Without that condition the
    statement fails, see [get_newest_mp4_not_always_a_newest]. *)
Theorem get_newest_mp4_selects_a_newest os folder names :
  py_not folder = false ->
  os_listdir os folder = Ret names ->
  (mp4_names names = [] -> get_newest_mp4 os folder = Ret None)
  /\ (mp4_names names <> [] ->
      forallb (fun f => is_Ret (os_path_getmtime os (os_path_join os folder f)))
        (mp4_names names) = true ->
      exists f t,
        In f names /\ endswith f (str ".mp4") = true
        /\ get_newest_mp4 os folder = Ret (Some (os_path_join os folder f))
        /\ os_path_getmtime os (os_path_join os folder f) = Ret t
        /\ forall f' t',
             In f' names -> endswith f' (str ".mp4") = true ->
             os_path_getmtime os (os_path_join os folder f') = Ret t' ->
             (t' <= t)%Z).
Proof.
  intros Hfolder Hlist. unfold get_newest_mp4. rewrite Hfolder, Hlist. cbn [bind].
  fold (mp4_names names). split.
  - intros ->. reflexivity.
  - intros Hne Hall.
    set (paths := map (os_path_join os folder) (mp4_names names)).
    assert (Hpaths : paths <> []).
    { unfold paths. destruct (mp4_names names); [congruence | discriminate]. }
    assert (Hkeys : forallb (fun p => is_Ret (os_path_getmtime os p)) paths = true).
    { unfold paths. rewrite forallb_forall in *. intros p Hp.
      apply in_map_iff in Hp as (f & <- & Hf). apply Hall. exact Hf. }
    destruct (py_max_spec (os_path_getmtime os) paths Hpaths Hkeys)
      as (r & t & Hr & Hin & Hkr & Hmax).
    unfold paths in Hin. apply in_map_iff in Hin as (f & <- & Hf).
    unfold mp4_names in Hf. apply filter_In in Hf as [Hf Hext].
    exists f, t. repeat split; try assumption.
    + destruct paths; [congruence|]. rewrite Hr. reflexivity.
    + intros f' t' Hf' Hext' Hk'. apply (Hmax (os_path_join os folder f')); [|exact Hk'].
      unfold paths. apply in_map. unfold mp4_names. apply filter_In. split; assumption.
Qed.

Lemma get_newest_mp4_selects_a_newest_witness :
  get_newest_mp4 demo_os (str "empty") = Ret None
  /\ exists f t,
       In f [str "a.mp4"; str "notes.txt"; str "b.mp4"; str "C.MP4"]
       /\ endswith f (str ".mp4") = true
       /\ get_newest_mp4 demo_os (str "videos")
          = Ret (Some (os_path_join demo_os (str "videos") f))
       /\ os_path_getmtime demo_os (os_path_join demo_os (str "videos") f) = Ret t
       /\ forall f' t',
            In f' [str "a.mp4"; str "notes.txt"; str "b.mp4"; str "C.MP4"] ->
            endswith f' (str ".mp4") = true ->
            os_path_getmtime demo_os (os_path_join demo_os (str "videos") f') = Ret t' ->
            (t' <= t)%Z.
Proof.
  split.
  - apply (get_newest_mp4_selects_a_newest demo_os (str "empty") [str "notes.txt"]);
      reflexivity.
  - apply (get_newest_mp4_selects_a_newest demo_os (str "videos")
             [str "a.mp4"; str "notes.txt"; str "b.mp4"; str "C.MP4"]);
      [reflexivity | reflexivity | discriminate | reflexivity].
Defined.

(** C2 as first stated does not hold: a folder that can be listed and holds
    matching names, one of which cannot be examined (a link to a file that
    is gone), makes [get_newest_mp4] raise instead of returning a newest
    entry. *)
Lemma get_newest_mp4_not_always_a_newest :
  py_not (str "videos") = false
  /\ os_listdir demo_os_dangling (str "videos")
     = Ret [str "a.mp4"; str "x.mp4"; str "b.mp4"]
  /\ mp4_names [str "a.mp4"; str "x.mp4"; str "b.mp4"] <> []
  /\ get_newest_mp4 demo_os_dangling (str "videos") = Raise (OSError 2)
  /\ ~ returns_a_newest demo_os_dangling (str "videos")
        [str "a.mp4"; str "x.mp4"; str "b.mp4"].
Proof.
  assert (H : get_newest_mp4 demo_os_dangling (str "videos") = Raise (OSError 2))
    by reflexivity.
  split; [reflexivity|]. split; [reflexivity|]. split; [discriminate|].
  split; [exact H|].
  intros (f & t & _ & _ & Hret & _). rewrite H in Hret. discriminate Hret.
Qed.

Example get_newest_mp4_demo :
  get_newest_mp4 demo_os (str "videos") = Ret (Some (str "videos/b.mp4"))
  /\ get_newest_mp4 demo_os (str "") = Ret None.
Proof. split; reflexivity. Qed.

(** C9. A folder path that is not empty and cannot be listed makes
    [get_newest_mp4] fail with the error of the listing; this differs from
    [None], the answer for the empty path of the state where no folder was
    selected. *)
Theorem get_newest_mp4_unreadable_folder os folder e :
  py_not folder = false ->
  os_listdir os folder = Raise e ->
  get_newest_mp4 os folder = Raise e
  /\ get_newest_mp4 os (str "") = Ret None
  /\ get_newest_mp4 os folder <> get_newest_mp4 os (str "").
Proof.
  intros Hfolder Hlist.
  assert (H : get_newest_mp4 os folder = Raise e).
  { unfold get_newest_mp4. rewrite Hfolder, Hlist. reflexivity. }
  repeat split; [exact H | rewrite H; discriminate].
Qed.

Lemma get_newest_mp4_unreadable_folder_witness :
  get_newest_mp4 demo_os (str "locked") = Raise (OSError 13)
  /\ get_newest_mp4 demo_os (str "") = Ret None
  /\ get_newest_mp4 demo_os (str "locked") <> get_newest_mp4 demo_os (str "").
Proof.
  apply (get_newest_mp4_unreadable_folder demo_os (str "locked") (OSError 13));
    reflexivity.
Defined.

(* ================================================================== *)
(** * The stream supervisor *)
(* ================================================================== *)

Lemma start_stream_started os st newest_mp4 youtube_url stream_key :
  start_passes os st newest_mp4 youtube_url stream_key ->
  start_stream os st
  = (Started (os_path_basename os newest_mp4),
     started_state os st newest_mp4 youtube_url stream_key).
Proof.
  intros [Hfolder Hnewest Htruthy (config & Hload & Hurl & Hkey) Hpresent
            Hprint Hchild].
  unfold start_stream. rewrite Hfolder, Hnewest.
  destruct newest_mp4 as [|c p]; [discriminate Htruthy|].
  rewrite Hload. cbn [bind]. rewrite Hurl. cbn [bind]. rewrite Hkey. cbn [bind].
  rewrite Hpresent. cbn zeta. rewrite Hprint, Hchild. reflexivity.
Qed.

(** Every call of [start_stream] either starts a child, or leaves the
    process handle, the label and the traces of [Popen] and [terminate]
    as they were. *)
Lemma start_stream_cases os st :
  (exists newest_mp4 youtube_url stream_key,
     start_stream os st
     = (Started (os_path_basename os newest_mp4),
        started_state os st newest_mp4 youtube_url stream_key))
  \/ (let st' := snd (start_stream os st) in
      (forall fileName, fst (start_stream os st) <> Started fileName)
      /\ ffmpeg_process st' = ffmpeg_process st
      /\ stream_status_label st' = stream_status_label st
      /\ Popen_calls st' = Popen_calls st
      /\ terminate_calls st' = terminate_calls st).
Proof.
  unfold start_stream.
  destruct (py_not (VIDEO_FOLDER st)); [right; repeat split; discriminate|].
  destruct (get_newest_mp4 os (VIDEO_FOLDER st)) as [[[|c p]|]|e];
    try (right; repeat split; discriminate).
  destruct (load_config (config_file st)) as [config|e]; cbn [bind];
    [|right; repeat split; discriminate].
  destruct (dict_get config (str "YOUTUBE_URL")) as [youtube_url|e]; cbn [bind];
    [|right; repeat split; discriminate].
  destruct (dict_get config (str "STREAM_KEY")) as [stream_key|e]; cbn [bind];
    [|right; repeat split; discriminate].
  destruct (py_not stream_key); [right; repeat split; discriminate|].
  destruct (print_raises os _) as [e|]; [right; repeat split; discriminate|].
  destruct (Popen_raises os _) as [e|]; [right; repeat split; discriminate|].
  left. exists (c :: p), youtube_url, stream_key. reflexivity.
Qed.

Lemma status_started os st newest_mp4 youtube_url stream_key :
  status (started_state os st newest_mp4 youtube_url stream_key)
  = Streaming (os_path_basename os newest_mp4).
Proof. reflexivity. Qed.

Lemma status_label st st' :
  stream_status_label st' = stream_status_label st -> status st' = status st.
Proof. unfold status. intros ->. reflexivity. Qed.



(** C3. When the stream key that [start_stream] reloads from the settings
    file is the empty string, the call ends with the missing-key error box,
    starts no process, and leaves the status and the process handle as they
    were. *)
Theorem start_stream_missing_credential os st newest_mp4 config youtube_url :
  py_not (VIDEO_FOLDER st) = false ->
  get_newest_mp4 os (VIDEO_FOLDER st) = Ret (Some newest_mp4) ->
  py_not newest_mp4 = false ->
  load_config (config_file st) = Ret config ->
  dict_get config (str "YOUTUBE_URL") = Ret youtube_url ->
  dict_get config (str "STREAM_KEY") = Ret (str "") ->
  let st' := snd (start_stream os st) in
  fst (start_stream os st) = MissingCredential
  /\ messageboxes st'
     = messageboxes st
       ++ [showerror (str "Error") (str "Stream Key is missing! Set it in Settings.")]
  /\ Popen_calls st' = Popen_calls st
  /\ status st' = status st
  /\ ffmpeg_process st' = ffmpeg_process st.
Proof.
  intros Hfolder Hnewest Htruthy Hload Hurl Hkey. unfold start_stream.
  rewrite Hfolder, Hnewest.
  destruct newest_mp4 as [|c p]; [discriminate Htruthy|].
  rewrite Hload. cbn [bind]. rewrite Hurl. cbn [bind]. rewrite Hkey.
  repeat split.
Qed.

Lemma start_stream_missing_credential_witness :
  let st := demo_state (str "videos") (create_config_file None) in
  fst (start_stream demo_os st) = MissingCredential
  /\ Popen_calls (snd (start_stream demo_os st)) = []
  /\ status (snd (start_stream demo_os st)) = Idle.
Proof.
  intros st.
  destruct (start_stream_missing_credential demo_os st (str "videos/b.mp4")
              default_config (str "rtmp://a.rtmp.youtube.com/live2"))
    as (Hout & _ & Hcalls & Hstatus & _); try reflexivity.
  exact (conj Hout (conj Hcalls Hstatus)).
Defined.

(** C4. When a folder is selected and [get_newest_mp4] finds no media file
    in it, [start_stream] ends with the no-media warning box, starts no
    process, and leaves the status and the process handle as they were. *)
Theorem start_stream_no_media os st :
  py_not (VIDEO_FOLDER st) = false ->
  get_newest_mp4 os (VIDEO_FOLDER st) = Ret None ->
  let st' := snd (start_stream os st) in
  fst (start_stream os st) = NoMediaFound
  /\ messageboxes st'
     = messageboxes st
       ++ [showwarning (str "No MP4 Found")
             (str "No MP4 files found in the selected folder.")]
  /\ Popen_calls st' = Popen_calls st
  /\ status st' = status st
  /\ ffmpeg_process st' = ffmpeg_process st.
Proof.
  intros Hfolder Hnewest. unfold start_stream. rewrite Hfolder, Hnewest.
  repeat split.
Qed.

Lemma start_stream_no_media_witness :
  let st := demo_state (str "empty") demo_settings in
  fst (start_stream demo_os st) = NoMediaFound
  /\ Popen_calls (snd (start_stream demo_os st)) = []
  /\ ffmpeg_process (snd (start_stream demo_os st)) = None.
Proof.
  intros st.
  destruct (start_stream_no_media demo_os st) as (Hout & _ & Hcalls & _ & Hproc);
    try reflexivity.
  exact (conj Hout (conj Hcalls Hproc)).
Defined.

Lemma module_init_state file st0 :
  module_init file = Ret st0 ->
  ffmpeg_process st0 = None
  /\ stream_status_label st0
     = {| text := str "Stream Status: Not Started"; fg := str "gray" |}.
Proof.
  unfold module_init.
  destruct (load_config (create_config_file file)) as [config|e];
    cbn [bind]; [|discriminate].
  destruct (dict_get config (str "YOUTUBE_URL")) as [yt_url|e];
    cbn [bind]; [|discriminate].
  destruct (dict_get config (str "STREAM_KEY")) as [stream_key|e];
    cbn [bind]; [|discriminate].
  intros [= <-]. split; reflexivity.
Qed.

Lemma handle_iff_streaming_started os st newest_mp4 youtube_url stream_key :
  handle_iff_streaming (started_state os st newest_mp4 youtube_url stream_key).
Proof.
  unfold handle_iff_streaming. rewrite status_started. split.
  - intros _. eexists. reflexivity.
  - intros _. discriminate.
Qed.

Lemma handle_iff_streaming_same st st' :
  ffmpeg_process st' = ffmpeg_process st ->
  stream_status_label st' = stream_status_label st ->
  handle_iff_streaming st -> handle_iff_streaming st'.
Proof.
  unfold handle_iff_streaming. intros Hp Hl. rewrite Hp, (status_label st st' Hl).
  exact (fun H => H).
Qed.

Lemma stop_stream_idle st : ffmpeg_process st = None -> stop_stream st = st.
Proof. unfold stop_stream. intros ->. reflexivity. Qed.

Lemma stop_stream_clears st : ffmpeg_process (stop_stream st) = None.
Proof.
  unfold stop_stream. destruct (ffmpeg_process st) eqn:E; [reflexivity | exact E].
Qed.

Lemma status_stop_stream st :
  status (stop_stream st) = match ffmpeg_process st with
                            | Some _ => Stopped
                            | None => status st
                            end.
Proof. unfold stop_stream. destruct (ffmpeg_process st); reflexivity. Qed.

(** C5. The supervisor holds a process handle exactly when the status is
    [Streaming] of some file name: this holds in the state the module body
    leaves, every call of [start_stream] keeps it (whether it starts a
    child, is rejected, or raises), and so does [stop_stream]. *)
Theorem handle_iff_streaming_invariant :
  (forall file st0, module_init file = Ret st0 -> handle_iff_streaming st0)
  /\ (forall os st,
        handle_iff_streaming st -> handle_iff_streaming (snd (start_stream os st)))
  /\ (forall st, handle_iff_streaming st -> handle_iff_streaming (stop_stream st)).
Proof.
  split; [|split].
  - intros file st0 Hinit.
    destruct (module_init_state file st0 Hinit) as [Hp Hl].
    unfold handle_iff_streaming, status. rewrite Hp, Hl. split.
    + intros H. destruct H. reflexivity.
    + intros [f Hf]. discriminate Hf.
  - intros os st Hinv.
    destruct (start_stream_cases os st)
      as [(newest_mp4 & youtube_url & stream_key & ->) | (_ & Hp & Hl & _)].
    + apply handle_iff_streaming_started.
    + exact (handle_iff_streaming_same st _ Hp Hl Hinv).
  - intros st Hinv. unfold handle_iff_streaming.
    rewrite stop_stream_clears, status_stop_stream.
    destruct (ffmpeg_process st) eqn:E.
    + split; [intros H; destruct H; reflexivity | intros [f Hf]; discriminate Hf].
    + unfold handle_iff_streaming in Hinv. rewrite E in Hinv. exact Hinv.
Qed.

Lemma handle_iff_streaming_invariant_witness :
  let st0 := demo_state (str "") (create_config_file None) in
  let st1 := snd (start_stream demo_os
                    (select_folder (str "videos")
                       (save_config (str "rtmp://host/live2") (str "secret123") st0))) in
  handle_iff_streaming st0
  /\ (handle_iff_streaming st1 /\ status st1 = Streaming (str "b.mp4"))
  /\ handle_iff_streaming (stop_stream st1).
Proof.
  intros st0 st1.
  destruct handle_iff_streaming_invariant as (Hinit & Hstart & Hstop).
  assert (H0 : handle_iff_streaming st0) by (apply (Hinit None); reflexivity).
  assert (H1 : handle_iff_streaming st1).
  { apply Hstart. revert H0. apply handle_iff_streaming_same; reflexivity. }
  exact (conj H0 (conj (conj H1 eq_refl) (Hstop st1 H1))).
Defined.

(** C6. With no process handle held, [stop_stream] changes nothing, so the
    status is the same before and after, and it raises nothing (it is a
    total function of the state).  After any call of [stop_stream] no handle
    is held, so a second call in a row changes nothing either. *)
Theorem stop_stream_idle_is_noop st :
  (ffmpeg_process st = None ->
   stop_stream st = st /\ status (stop_stream st) = status st)
  /\ ffmpeg_process (stop_stream st) = None
  /\ stop_stream (stop_stream st) = stop_stream st.
Proof.
  split; [|split].
  - intros Hidle. rewrite (stop_stream_idle st Hidle). split; reflexivity.
  - apply stop_stream_clears.
  - apply stop_stream_idle, stop_stream_clears.
Qed.

Lemma stop_stream_idle_is_noop_witness :
  let st := demo_state (str "videos") demo_settings in
  stop_stream st = st /\ status (stop_stream st) = status st.
Proof.
  intros st. apply (proj1 (stop_stream_idle_is_noop st)). reflexivity.
Defined.

(** C10. When a process handle is already held and a call of
    [start_stream] succeeds (it passes its checks, prints its line and
    [Popen] does not raise), the stored handle becomes the handle of the
    child this call starts, and the call adds nothing to the [terminate]
    calls: the process held before is not asked to stop. *)
Theorem start_stream_replaces_handle
    os st old newest_mp4 youtube_url stream_key :
  ffmpeg_process st = Some old ->
  start_passes os st newest_mp4 youtube_url stream_key ->
  let st' := snd (start_stream os st) in
  let new := length (Popen_calls st) in
  ffmpeg_process st' = Some new
  /\ nth_error (Popen_calls st') new
     = Some (ffmpeg_command newest_mp4 youtube_url stream_key)
  /\ terminate_calls st' = terminate_calls st
  /\ ((old < length (Popen_calls st))%nat -> new <> old).
Proof.
  intros Hold Hpass. cbn zeta.
  rewrite (start_stream_started _ _ _ _ _ Hpass). cbn [snd].
  split; [reflexivity|]. split; [|split; [reflexivity|]].
  - unfold started_state. cbn [spawned print Popen_calls].
    rewrite nth_error_app2 by apply le_n. rewrite PeanoNat.Nat.sub_diag. reflexivity.
  - intros Hlt Heq. rewrite Heq in Hlt. exact (PeanoNat.Nat.lt_irrefl _ Hlt).
Qed.

Lemma start_stream_replaces_handle_witness :
  let st := snd (start_stream demo_os (demo_state (str "videos") demo_settings)) in
  ffmpeg_process st = Some 0%nat
  /\ ffmpeg_process (snd (start_stream demo_os st)) = Some 1%nat
  /\ terminate_calls (snd (start_stream demo_os st)) = [].
Proof.
  intros st.
  assert (Hpass : start_passes demo_os st (str "videos/b.mp4")
                    (str "rtmp://host/live2") (str "secret123")).
  { constructor; try reflexivity.
    exists [(str "YOUTUBE_URL", str "rtmp://host/live2");
            (str "STREAM_KEY", str "secret123")].
    repeat split; reflexivity. }
  destruct (start_stream_replaces_handle demo_os st 0%nat _ _ _ eq_refl Hpass)
    as (Hnew & _ & Hterm & _).
  exact (conj eq_refl (conj Hnew Hterm)).
Defined.

(** The scenario of a folder with an older [a.mp4] and a newer [b.mp4]:
    the newer file is streamed to the saved endpoint, and stopping sends
    one [terminate] to that child and clears the handle. *)
Example start_then_stop :
  let st := demo_state (str "videos") demo_settings in
  let st1 := snd (start_stream demo_os st) in
  let st2 := stop_stream st1 in
  fst (start_stream demo_os st) = Started (str "b.mp4")
  /\ status st1 = Streaming (str "b.mp4")
  /\ ffmpeg_process st1 = Some 0%nat
  /\ stdout st1 = [str "Streaming: videos/b.mp4"]
  /\ status st2 = Stopped
  /\ ffmpeg_process st2 = None
  /\ terminate_calls st2 = [0%nat]
  /\ messageboxes st2
     = [showinfo (str "Stream Stopped") (str "The stream has been stopped.")]
  /\ stop_stream st2 = st2.
Proof. cbv zeta. repeat split; reflexivity. Qed.

(** Without a selected folder the call is rejected before anything is read. *)
Example start_without_folder :
  let st := demo_state (str "") demo_settings in
  fst (start_stream demo_os st) = NoFolderSelected
  /\ messageboxes (snd (start_stream demo_os st))
     = [showerror (str "Error") (str "Please select a folder first!")].
Proof. split; reflexivity. Qed.

(** A settings file that disappeared after start-up makes the call raise. *)
Example start_without_settings_file :
  start_stream demo_os (demo_state (str "videos") None)
  = (Raised FileNotFoundError, demo_state (str "videos") None).
Proof. reflexivity. Qed.

(* ================================================================== *)
(** * Further properties of the newest-file selector *)
(* ================================================================== *)

(** X1. [endswith] holds exactly when the string is some prefix followed by
    the suffix, code point for code point; so [get_newest_mp4] keeps the
    names that end in the lower-case [.mp4] and no others. *)
Theorem endswith_iff_suffix s suffix :
  endswith s suffix = true <-> exists p, s = p ++ suffix.
Proof.
  unfold endswith. rewrite andb_true_iff, PeanoNat.Nat.leb_le, pystr_eqb_eq. split.
  - intros [Hlen Hskip]. exists (firstn (length s - length suffix) s).
    rewrite <- Hskip at 2. symmetry. apply firstn_skipn.
  - intros [p ->]. rewrite length_app. split; [lia|].
    replace (length p + length suffix - length suffix)%nat with (length p + 0)%nat by lia.
    rewrite skipn_app, PeanoNat.Nat.add_0_r, skipn_all.
    replace (length p - length p)%nat with 0%nat by lia. reflexivity.
Qed.

Section MaxMore.
Context {A : Type} (key : A -> result Z).

Lemma max_loop_first l : forall maxitem maxval,
  key maxitem = Ret maxval ->
  forallb (fun x => is_Ret (key x)) l = true ->
  (max_loop key maxitem maxval l = Ret maxitem
   /\ forall x tx, In x l -> key x = Ret tx -> (tx <= maxval)%Z)
  \/ exists l1 r l2 t,
       l = l1 ++ r :: l2 /\ max_loop key maxitem maxval l = Ret r
       /\ key r = Ret t /\ (maxval < t)%Z
       /\ (forall x tx, In x l1 -> key x = Ret tx -> (tx < t)%Z)
       /\ (forall x tx, In x l2 -> key x = Ret tx -> (tx <= t)%Z).
Proof.
  induction l as [|item l IH]; intros maxitem maxval Hm Hall.
  - left. split; [reflexivity|]. intros x tx [].
  - cbn [forallb] in Hall. apply andb_true_iff in Hall as [Hitem Hall].
    cbn [max_loop]. destruct (key item) as [val|e] eqn:Hk; [|discriminate Hitem].
    cbn [bind]. destruct (Z.ltb_spec maxval val) as [Hlt | Hge].
    + right. destruct (IH item val Hk Hall)
        as [[Hr Hmax] | (l1 & r & l2 & t & -> & Hr & Hkr & Hlt' & H1 & H2)].
      * exists [], item, l, val. repeat split; try assumption.
        intros x tx [].
      * exists (item :: l1), r, l2, t. repeat split; try assumption; [lia|].
        intros x tx [<- | Hx] Hkx; [|eapply H1; eassumption].
        rewrite Hk in Hkx. injection Hkx as <-. exact Hlt'.
    + destruct (IH maxitem maxval Hm Hall)
        as [[Hr Hmax] | (l1 & r & l2 & t & -> & Hr & Hkr & Hlt' & H1 & H2)].
      * left. split; [exact Hr|].
        intros x tx [<- | Hx] Hkx; [|eapply Hmax; eassumption].
        rewrite Hk in Hkx. injection Hkx as <-. exact Hge.
      * right. exists (item :: l1), r, l2, t. repeat split; try assumption.
        intros x tx [<- | Hx] Hkx; [|eapply H1; eassumption].
        rewrite Hk in Hkx. injection Hkx as <-. lia.
Qed.

Lemma py_max_first l :
  l <> [] -> forallb (fun x => is_Ret (key x)) l = true ->
  exists l1 r l2 t,
    l = l1 ++ r :: l2 /\ py_max key l = Ret r /\ key r = Ret t
    /\ (forall x tx, In x l1 -> key x = Ret tx -> (tx < t)%Z)
    /\ (forall x tx, In x l2 -> key x = Ret tx -> (tx <= t)%Z).
Proof.
  destruct l as [|item l]; [congruence|]. intros _ Hall.
  cbn [forallb] in Hall. apply andb_true_iff in Hall as [Hitem Hall].
  cbn [py_max]. destruct (key item) as [val|e] eqn:Hk; [|discriminate Hitem].
  cbn [bind].
  destruct (max_loop_first l item val Hk Hall)
    as [[Hr Hmax] | (l1 & r & l2 & t & -> & Hr & Hkr & Hlt' & H1 & H2)].
  - exists [], item, l, val. repeat split; try assumption. intros x tx [].
  - exists (item :: l1), r, l2, t. repeat split; try assumption.
    intros x tx [<- | Hx] Hkx; [|eapply H1; eassumption].
    rewrite Hk in Hkx. injection Hkx as <-. exact Hlt'.
Qed.

Lemma max_loop_raises l1 : forall maxitem maxval item e l2,
  forallb (fun x => is_Ret (key x)) l1 = true ->
  key item = Raise e ->
  max_loop key maxitem maxval (l1 ++ item :: l2) = Raise e.
Proof.
  induction l1 as [|x l1 IH]; intros maxitem maxval item e l2 Hall Hitem.
  - cbn [app max_loop]. rewrite Hitem. reflexivity.
  - cbn [forallb] in Hall. apply andb_true_iff in Hall as [Hx Hall].
    cbn [app max_loop]. destruct (key x) as [val|e']; [|discriminate Hx].
    cbn [bind]. destruct (maxval <? val)%Z; apply IH; assumption.
Qed.

Lemma py_max_raises l1 item e l2 :
  forallb (fun x => is_Ret (key x)) l1 = true ->
  key item = Raise e ->
  py_max key (l1 ++ item :: l2) = Raise e.
Proof.
  intros Hall Hitem. destruct l1 as [|x l1].
  - cbn [app py_max]. rewrite Hitem. reflexivity.
  - cbn [forallb] in Hall. apply andb_true_iff in Hall as [Hx Hall].
    cbn [app py_max]. destruct (key x) as [val|e']; [|discriminate Hx].
    cbn [bind]. apply max_loop_raises; assumption.
Qed.

End MaxMore.

Lemma get_newest_mp4_listed os folder names :
  py_not folder = false -> os_listdir os folder = Ret names ->
  get_newest_mp4 os folder
  = match mp4_names names with
    | [] => Ret None
    | _ :: _ =>
        bind (py_max (os_path_getmtime os)
                (map (os_path_join os folder) (mp4_names names)))
             (fun newest => Ret (Some newest))
    end.
Proof.
  intros Hfolder Hlist. unfold get_newest_mp4. rewrite Hfolder, Hlist. cbn [bind].
  fold (mp4_names names). destruct (mp4_names names); reflexivity.
Qed.

(** X2. The answer of [get_newest_mp4] depends on the listing only through
    the names that end in [.mp4]: two listings of the folder with the same
    such names, in the same order, give the same answer, whatever else
    they hold. *)
Theorem get_newest_mp4_ignores_other_entries os os' folder names names' :
  os_path_join os' = os_path_join os ->
  os_path_getmtime os' = os_path_getmtime os ->
  os_listdir os folder = Ret names ->
  os_listdir os' folder = Ret names' ->
  mp4_names names' = mp4_names names ->
  get_newest_mp4 os' folder = get_newest_mp4 os folder.
Proof.
  intros Hjoin Hmtime Hlist Hlist' Hsame.
  destruct (py_not folder) eqn:Hfolder.
  - unfold get_newest_mp4. rewrite Hfolder. reflexivity.
  - rewrite (get_newest_mp4_listed os folder names Hfolder Hlist).
    rewrite (get_newest_mp4_listed os' folder names' Hfolder Hlist').
    rewrite Hsame, Hjoin, Hmtime. reflexivity.
Qed.

Lemma get_newest_mp4_ignores_other_entries_witness :
  get_newest_mp4 demo_os_other_files (str "videos")
  = get_newest_mp4 demo_os (str "videos").
Proof.
  apply (get_newest_mp4_ignores_other_entries demo_os demo_os_other_files
           (str "videos")
           [str "a.mp4"; str "notes.txt"; str "b.mp4"; str "C.MP4"]
           [str "readme"; str "a.mp4"; str "b.mp4"]); reflexivity.
Defined.

(** X3. Among equally new files the one listed first wins: the entry
    [get_newest_mp4] returns is strictly newer than every matching entry
    listed before it and at least as new as every one listed after it. *)
Theorem get_newest_mp4_first_of_the_newest os folder names :
  py_not folder = false ->
  os_listdir os folder = Ret names ->
  mp4_names names <> [] ->
  forallb (fun f => is_Ret (os_path_getmtime os (os_path_join os folder f)))
    (mp4_names names) = true ->
  exists before f after t,
    mp4_names names = before ++ f :: after
    /\ get_newest_mp4 os folder = Ret (Some (os_path_join os folder f))
    /\ os_path_getmtime os (os_path_join os folder f) = Ret t
    /\ (forall f' t', In f' before ->
          os_path_getmtime os (os_path_join os folder f') = Ret t' -> (t' < t)%Z)
    /\ (forall f' t', In f' after ->
          os_path_getmtime os (os_path_join os folder f') = Ret t' -> (t' <= t)%Z).
Proof.
  intros Hfolder Hlist Hne Hall.
  rewrite (get_newest_mp4_listed os folder names Hfolder Hlist).
  set (paths := map (os_path_join os folder) (mp4_names names)).
  assert (Hpaths : paths <> []).
  { unfold paths. destruct (mp4_names names); [congruence | discriminate]. }
  assert (Hkeys : forallb (fun p => is_Ret (os_path_getmtime os p)) paths = true).
  { unfold paths. rewrite forallb_forall in *. intros p Hp.
    apply in_map_iff in Hp as (f & <- & Hf). apply Hall. exact Hf. }
  destruct (py_max_first (os_path_getmtime os) paths Hpaths Hkeys)
    as (l1 & r & l2 & t & Hsplit & Hr & Hkr & H1 & H2).
  unfold paths in Hsplit. apply map_eq_app in Hsplit as (before & rest & Hnames & <- & Hrest).
  apply map_eq_cons in Hrest as (f & after & -> & <- & <-).
  exists before, f, after, t. split; [exact Hnames|].
  split; [|split; [exact Hkr|split]].
  - destruct (mp4_names names); [congruence|]. rewrite Hr. reflexivity.
  - intros f' t' Hf' Hk'. apply (H1 (os_path_join os folder f')); [|exact Hk'].
    apply in_map. exact Hf'.
  - intros f' t' Hf' Hk'. apply (H2 (os_path_join os folder f')); [|exact Hk'].
    apply in_map. exact Hf'.
Qed.

Lemma get_newest_mp4_first_of_the_newest_witness :
  exists before f after t,
    mp4_names [str "a.mp4"; str "b.mp4"; str "c.mp4"] = before ++ f :: after
    /\ get_newest_mp4 demo_os_ties (str "videos")
       = Ret (Some (os_path_join demo_os_ties (str "videos") f))
    /\ os_path_getmtime demo_os_ties (os_path_join demo_os_ties (str "videos") f) = Ret t
    /\ (forall f' t', In f' before ->
          os_path_getmtime demo_os_ties (os_path_join demo_os_ties (str "videos") f')
          = Ret t' -> (t' < t)%Z)
    /\ (forall f' t', In f' after ->
          os_path_getmtime demo_os_ties (os_path_join demo_os_ties (str "videos") f')
          = Ret t' -> (t' <= t)%Z).
Proof.
  apply (get_newest_mp4_first_of_the_newest demo_os_ties (str "videos")
           [str "a.mp4"; str "b.mp4"; str "c.mp4"]);
    [reflexivity | reflexivity | discriminate | reflexivity].
Defined.

Example get_newest_mp4_tie : 
  get_newest_mp4 demo_os_ties (str "videos") = Ret (Some (str "videos/b.mp4")).
Proof. reflexivity. Qed.

(** X4. One matching entry whose modification time cannot be read makes
    [get_newest_mp4] raise that error, even when other entries are fine:
    the first such entry in listing order decides. *)
Theorem get_newest_mp4_unreadable_entry os folder names before f after e :
  py_not folder = false ->
  os_listdir os folder = Ret names ->
  mp4_names names = before ++ f :: after ->
  forallb (fun f' => is_Ret (os_path_getmtime os (os_path_join os folder f')))
    before = true ->
  os_path_getmtime os (os_path_join os folder f) = Raise e ->
  get_newest_mp4 os folder = Raise e.
Proof.
  intros Hfolder Hlist Hsplit Hbefore Hf.
  rewrite (get_newest_mp4_listed os folder names Hfolder Hlist), Hsplit.
  rewrite map_app. cbn [map].
  rewrite (py_max_raises (os_path_getmtime os)
             (map (os_path_join os folder) before) (os_path_join os folder f) e).
  - destruct before; reflexivity.
  - rewrite forallb_forall in *. intros p Hp.
    apply in_map_iff in Hp as (f' & <- & Hf'). apply Hbefore. exact Hf'.
  - exact Hf.
Qed.

Lemma get_newest_mp4_unreadable_entry_witness :
  get_newest_mp4 demo_os_dangling (str "videos") = Raise (OSError 2).
Proof.
  apply (get_newest_mp4_unreadable_entry demo_os_dangling (str "videos")
           [str "a.mp4"; str "x.mp4"; str "b.mp4"]
           [str "a.mp4"] (str "x.mp4") [str "b.mp4"]); reflexivity.
Defined.

(* ================================================================== *)
(** * Further properties of the stream supervisor *)
(* ================================================================== *)



(** X5. When [get_newest_mp4] raises (a folder that cannot be listed, an
    entry that cannot be examined), the exception leaves [start_stream] and
    the state is exactly as before: no message box is shown, nothing is
    started. *)
Theorem start_stream_selector_raises os st e :
  get_newest_mp4 os (VIDEO_FOLDER st) = Raise e ->
  start_stream os st = (Raised e, st).
Proof.
  intros Hraise. unfold start_stream.
  destruct (py_not (VIDEO_FOLDER st)) eqn:Hfolder.
  - unfold get_newest_mp4 in Hraise. rewrite Hfolder in Hraise. discriminate.
  - rewrite Hraise. reflexivity.
Qed.

Lemma start_stream_selector_raises_witness :
  let st := demo_state (str "locked") demo_settings in
  start_stream demo_os st = (Raised (OSError 13), st).
Proof.
  intros st. apply (start_stream_selector_raises demo_os st (OSError 13)).
  reflexivity.
Defined.



(** X7. When the line of line 111 was printed and [Popen] then raises, the
    exception leaves [start_stream]: the state differs from the one before
    by that line only, so the handle, the status, the [Popen] calls and the
    message boxes are unchanged. *)
Theorem start_stream_Popen_raises os st newest_mp4 config youtube_url stream_key e :
  py_not (VIDEO_FOLDER st) = false ->
  get_newest_mp4 os (VIDEO_FOLDER st) = Ret (Some newest_mp4) ->
  py_not newest_mp4 = false ->
  load_config (config_file st) = Ret config ->
  dict_get config (str "YOUTUBE_URL") = Ret youtube_url ->
  dict_get config (str "STREAM_KEY") = Ret stream_key ->
  py_not stream_key = false ->
  print_raises os (str "Streaming: " ++ newest_mp4) = None ->
  Popen_raises os (ffmpeg_command newest_mp4 youtube_url stream_key) = Some e ->
  let st' := snd (start_stream os st) in
  fst (start_stream os st) = Raised e
  /\ st' = print (str "Streaming: " ++ newest_mp4) st
  /\ ffmpeg_process st' = ffmpeg_process st
  /\ status st' = status st
  /\ Popen_calls st' = Popen_calls st
  /\ messageboxes st' = messageboxes st.
Proof.
  intros Hfolder Hnewest Htruthy Hload Hurl Hkey Hpresent Hprint Hchild.
  unfold start_stream. rewrite Hfolder, Hnewest.
  destruct newest_mp4 as [|c p]; [discriminate Htruthy|].
  rewrite Hload. cbn [bind]. rewrite Hurl. cbn [bind]. rewrite Hkey. cbn [bind].
  rewrite Hpresent. cbn zeta. rewrite Hprint, Hchild. cbn [fst snd].
  repeat split.
Qed.

Lemma start_stream_Popen_raises_witness :
  let st := demo_state (str "videos") demo_settings in
  fst (start_stream demo_os_ties st) = Raised (OSError 2)
  /\ snd (start_stream demo_os_ties st) = print (str "Streaming: videos/b.mp4") st.
Proof.
  intros st.
  destruct (start_stream_Popen_raises demo_os_ties st (str "videos/b.mp4")
              [(str "YOUTUBE_URL", str "rtmp://host/live2");
               (str "STREAM_KEY", str "secret123")]
              (str "rtmp://host/live2") (str "secret123") (OSError 2))
    as (Hout & Hst & _); try reflexivity.
  exact (conj Hout Hst).
Defined.

Ltac start_stream_paths os st :=
  unfold start_stream;
  destruct (py_not (VIDEO_FOLDER st));
  [|destruct (get_newest_mp4 os (VIDEO_FOLDER st)) as [[[|?c ?p]|]|?e];
    [| destruct (load_config (config_file st)) as [?config|?e]; cbn [bind];
       [destruct (dict_get config (str "YOUTUBE_URL")) as [?youtube_url|?e]; cbn [bind];
        [destruct (dict_get config (str "STREAM_KEY")) as [?stream_key|?e]; cbn [bind];
         [destruct (py_not stream_key);
          [|cbn zeta; destruct (print_raises os _) as [?e|];
            [|destruct (Popen_raises os _) as [?e|]]]|]|]|]| |]].

(** X8. On every path [start_stream] leaves the settings file, the selected
    folder, the two start-up globals and the [terminate] calls as they were,
    and makes at most one [Popen] call. *)
Theorem start_stream_frame os st :
  let st' := snd (start_stream os st) in
  config_file st' = config_file st
  /\ VIDEO_FOLDER st' = VIDEO_FOLDER st
  /\ YOUTUBE_URL st' = YOUTUBE_URL st
  /\ STREAM_KEY st' = STREAM_KEY st
  /\ terminate_calls st' = terminate_calls st
  /\ (Popen_calls st' = Popen_calls st
      \/ exists cmd, Popen_calls st' = Popen_calls st ++ [cmd]).
Proof.
  start_stream_paths os st; cbn [snd];
    repeat (split; [reflexivity|]);
    try (left; reflexivity).
  right. eexists. reflexivity.
Qed.

(** X9. [stop_stream] after a successful [start_stream] sends one
    [terminate], to the child that call started, clears the handle, sets the
    status to stopped and shows one information box. *)
Theorem stop_after_start os st newest_mp4 youtube_url stream_key :
  start_passes os st newest_mp4 youtube_url stream_key ->
  let st2 := stop_stream (snd (start_stream os st)) in
  terminate_calls st2 = terminate_calls st ++ [length (Popen_calls st)]
  /\ Popen_calls st2
     = Popen_calls st ++ [ffmpeg_command newest_mp4 youtube_url stream_key]
  /\ ffmpeg_process st2 = None
  /\ status st2 = Stopped
  /\ messageboxes st2
     = messageboxes st
       ++ [showinfo (str "Stream Stopped") (str "The stream has been stopped.")].
Proof.
  intros Hpass. cbn zeta. rewrite (start_stream_started _ _ _ _ _ Hpass).
  cbn [snd]. repeat split.
Qed.

Lemma stop_after_start_witness :
  let st := demo_state (str "videos") demo_settings in
  let st2 := stop_stream (snd (start_stream demo_os st)) in
  terminate_calls st2 = [0%nat] /\ ffmpeg_process st2 = None /\ status st2 = Stopped.
Proof.
  intros st st2.
  assert (Hpass : start_passes demo_os st (str "videos/b.mp4")
                    (str "rtmp://host/live2") (str "secret123")).
  { constructor; try reflexivity.
    exists [(str "YOUTUBE_URL", str "rtmp://host/live2");
            (str "STREAM_KEY", str "secret123")].
    repeat split; reflexivity. }
  destruct (stop_after_start _ _ _ _ _ Hpass) as (Hterm & _ & Hproc & Hstatus & _).
  exact (conj Hterm (conj Hproc Hstatus)).
Defined.


Lemma start_stream_folder_selected os st :
  py_not (VIDEO_FOLDER st) = false -> fst (start_stream os st) <> NoFolderSelected.
Proof.
  intros H. unfold start_stream. rewrite H.
  destruct (get_newest_mp4 os (VIDEO_FOLDER st)) as [[[|c p]|]|e]; try discriminate.
  destruct (load_config (config_file st)) as [config|e]; cbn [bind]; [|discriminate].
  destruct (dict_get config (str "YOUTUBE_URL")) as [youtube_url|e];
    cbn [bind]; [|discriminate].
  destruct (dict_get config (str "STREAM_KEY")) as [stream_key|e];
    cbn [bind]; [|discriminate].
  destruct (py_not stream_key); [discriminate|]. cbn zeta.
  destruct (print_raises os _); [discriminate|].
  destruct (Popen_raises os _); discriminate.
Qed.

(** X10. [start_stream] ends with the select-a-folder error exactly when
    [VIDEO_FOLDER] is empty, whatever the system and the settings file
    are; the state then differs by that one error box. *)
Theorem start_stream_no_folder_iff os st :
  (fst (start_stream os st) = NoFolderSelected <-> py_not (VIDEO_FOLDER st) = true)
  /\ (py_not (VIDEO_FOLDER st) = true ->
      snd (start_stream os st)
      = show (showerror (str "Error") (str "Please select a folder first!")) st).
Proof.
  split; [split|].
  - intros H. destruct (py_not (VIDEO_FOLDER st)) eqn:E; [reflexivity|].
    destruct (start_stream_folder_selected os st E H).
  - intros H. unfold start_stream. rewrite H. reflexivity.
  - intros H. unfold start_stream. rewrite H. reflexivity.
Qed.

Lemma start_stream_no_folder_iff_witness :
  let st := demo_state (str "") None in
  snd (start_stream demo_os_dangling st)
  = show (showerror (str "Error") (str "Please select a folder first!")) st.
Proof.
  intros st. apply (proj2 (start_stream_no_folder_iff demo_os_dangling st)).
  reflexivity.
Defined.

(** X11. [start_stream] reports a started stream only when every check
    passed: a folder is selected, a media file was found, the settings file
    loaded with both members, the key is not empty and [Popen] did not
    raise; the state is then the one of a successful start. *)
Theorem start_stream_started_only_if_checks_pass os st fileName :
  fst (start_stream os st) = Started fileName ->
  exists newest_mp4 youtube_url stream_key,
    start_passes os st newest_mp4 youtube_url stream_key
    /\ fileName = os_path_basename os newest_mp4
    /\ snd (start_stream os st)
       = started_state os st newest_mp4 youtube_url stream_key.
Proof.
  unfold start_stream.
  destruct (py_not (VIDEO_FOLDER st)) eqn:Hfolder; [discriminate|].
  destruct (get_newest_mp4 os (VIDEO_FOLDER st)) as [[[|c p]|]|e] eqn:Hnewest;
    try discriminate.
  destruct (load_config (config_file st)) as [config|e] eqn:Hload;
    cbn [bind]; [|discriminate].
  destruct (dict_get config (str "YOUTUBE_URL")) as [youtube_url|e] eqn:Hurl;
    cbn [bind]; [|discriminate].
  destruct (dict_get config (str "STREAM_KEY")) as [stream_key|e] eqn:Hkey;
    cbn [bind]; [|discriminate].
  destruct (py_not stream_key) eqn:Hpresent; [discriminate|]. cbn zeta.
  destruct (print_raises os _) as [e|] eqn:Hprint; [discriminate|].
  destruct (Popen_raises os _) as [e|] eqn:Hchild; [discriminate|].
  cbn [fst snd]. intros [= <-].
  exists (c :: p), youtube_url, stream_key. split; [|split; reflexivity].
  constructor; try assumption; [reflexivity|].
  exists config. repeat split; assumption.
Qed.

Lemma start_stream_started_only_if_checks_pass_witness :
  let st := demo_state (str "videos") demo_settings in
  exists newest_mp4 youtube_url stream_key,
    start_passes demo_os st newest_mp4 youtube_url stream_key
    /\ str "b.mp4" = os_path_basename demo_os newest_mp4
    /\ snd (start_stream demo_os st)
       = started_state demo_os st newest_mp4 youtube_url stream_key.
Proof.
  intros st. apply start_stream_started_only_if_checks_pass. reflexivity.
Defined.

(* ================================================================== *)
(** * The settings window *)
(* ================================================================== *)

Lemma lstrip_head s c t : lstrip s = c :: t -> isspace c = false.
Proof.
  induction s as [|a s IH]; [discriminate|]. cbn [lstrip].
  destruct (isspace a) eqn:E; [exact IH|]. intros [= <- _]. exact E.
Qed.

Lemma lstrip_nil_iff s : lstrip s = [] <-> forallb isspace s = true.
Proof.
  induction s as [|a s IH]; [split; reflexivity|]. cbn [lstrip forallb].
  destruct (isspace a); cbn [andb]; [exact IH|]. split; discriminate.
Qed.

Lemma forallb_lstrip (P : N -> bool) s :
  forallb P s = true -> forallb P (lstrip s) = true.
Proof.
  induction s as [|a s IH]; [reflexivity|]. cbn [lstrip]. intros H.
  destruct (isspace a); [|exact H].
  cbn [forallb] in H. apply andb_true_iff in H. apply IH, H.
Qed.

Lemma forallb_rev (P : N -> bool) s : forallb P (rev s) = forallb P s.
Proof.
  destruct (forallb P s) eqn:E.
  - rewrite forallb_forall in *. intros x Hx. apply E, in_rev, Hx.
  - destruct (forallb P (rev s)) eqn:E'; [|reflexivity].
    rewrite <- E. symmetry. rewrite forallb_forall in *.
    intros x Hx. apply E'. rewrite <- in_rev. exact Hx.
Qed.

Lemma forallb_strip (P : N -> bool) s :
  forallb P s = true -> forallb P (strip s) = true.
Proof.
  intros H. unfold strip, rstrip. rewrite forallb_rev. apply forallb_lstrip.
  rewrite forallb_rev. apply forallb_lstrip. exact H.
Qed.

Lemma py_not_nil s : py_not s = true <-> s = [].
Proof. destruct s; split; (reflexivity || discriminate). Qed.

Lemma rev_nil_iff (s : pystr) : rev s = [] <-> s = [].
Proof.
  split; [|intros ->; reflexivity]. intros H.
  rewrite <- (rev_involutive s), H. reflexivity.
Qed.

Lemma strip_blank_iff s : py_not (strip s) = true <-> forallb isspace s = true.
Proof.
  rewrite py_not_nil. unfold strip, rstrip.
  rewrite rev_nil_iff, lstrip_nil_iff, forallb_rev.
  rewrite <- (lstrip_nil_iff s). split.
  - intros H. destruct (lstrip s) as [|c t] eqn:E; [reflexivity|].
    apply lstrip_head in E. cbn [forallb] in H. rewrite E in H. discriminate.
  - intros ->. reflexivity.
Qed.

Lemma save_and_close_rejected yt_url_entry stream_key_entry st :
  fst (save_and_close yt_url_entry stream_key_entry st) = false ->
  snd (save_and_close yt_url_entry stream_key_entry st)
  = show (showerror (str "Error") (str "Both fields must be filled!")) st.
Proof.
  unfold save_and_close. cbn zeta.
  destruct (py_not (strip yt_url_entry) || py_not (strip stream_key_entry));
    [reflexivity | discriminate].
Qed.

(** X12. [save_and_close] refuses to save exactly when one of the two
    entries holds white space only (or nothing); it then shows the error box
    and changes nothing else, the settings file included. *)
Theorem save_and_close_rejects_blank_fields yt_url_entry stream_key_entry st :
  (fst (save_and_close yt_url_entry stream_key_entry st) = false
   <-> forallb isspace yt_url_entry = true
       \/ forallb isspace stream_key_entry = true)
  /\ (fst (save_and_close yt_url_entry stream_key_entry st) = false ->
      snd (save_and_close yt_url_entry stream_key_entry st)
      = show (showerror (str "Error") (str "Both fields must be filled!")) st).
Proof.
  unfold save_and_close. cbn zeta.
  rewrite <- !strip_blank_iff, <- orb_true_iff.
  destruct (py_not (strip yt_url_entry) || py_not (strip stream_key_entry));
    cbn [fst snd]; split; try split; try reflexivity; discriminate.
Qed.

Lemma save_and_close_rejects_blank_fields_witness :
  let st := demo_state (str "videos") demo_settings in
  snd (save_and_close (str "rtmp://host/live2") (str "   ") st)
  = show (showerror (str "Error") (str "Both fields must be filled!")) st.
Proof.
  intros st.
  apply (proj2 (save_and_close_rejects_blank_fields
                  (str "rtmp://host/live2") (str "   ") st)).
  reflexivity.
Defined.

Lemma save_and_close_accepted yt_url_entry stream_key_entry st :
  fst (save_and_close yt_url_entry stream_key_entry st) = true ->
  py_not (strip yt_url_entry) = false
  /\ py_not (strip stream_key_entry) = false
  /\ snd (save_and_close yt_url_entry stream_key_entry st)
     = save_config (strip yt_url_entry) (strip stream_key_entry) st.
Proof.
  unfold save_and_close. cbn zeta.
  destruct (py_not (strip yt_url_entry)), (py_not (strip stream_key_entry));
    cbn [orb fst snd]; try discriminate.
  intros _. repeat split.
Qed.

Lemma load_config_save_and_close yt_url_entry stream_key_entry st :
  unicode_text yt_url_entry = true -> unicode_text stream_key_entry = true ->
  fst (save_and_close yt_url_entry stream_key_entry st) = true ->
  load_config (config_file (snd (save_and_close yt_url_entry stream_key_entry st)))
  = Ret [(str "YOUTUBE_URL", strip yt_url_entry);
         (str "STREAM_KEY", strip stream_key_entry)].
Proof.
  intros Hu Hk Hsaved.
  destruct (save_and_close_accepted _ _ st Hsaved) as (_ & _ & ->).
  apply load_config_save_config; apply unicode_text_stable, forallb_strip; assumption.
Qed.

(** X13. When [save_and_close] saves entries that are Unicode text, the
    settings file then loads to the two entries with the surrounding white
    space removed, both non-empty, and no message box is shown. *)
Theorem save_and_close_saves_stripped yt_url_entry stream_key_entry st :
  unicode_text yt_url_entry = true -> unicode_text stream_key_entry = true ->
  fst (save_and_close yt_url_entry stream_key_entry st) = true ->
  let st' := snd (save_and_close yt_url_entry stream_key_entry st) in
  load_config (config_file st')
  = Ret [(str "YOUTUBE_URL", strip yt_url_entry);
         (str "STREAM_KEY", strip stream_key_entry)]
  /\ py_not (strip yt_url_entry) = false
  /\ py_not (strip stream_key_entry) = false
  /\ messageboxes st' = messageboxes st.
Proof.
  intros Hu Hk Hsaved. cbn zeta.
  split; [apply load_config_save_and_close; assumption|].
  destruct (save_and_close_accepted _ _ st Hsaved) as (H1 & H2 & ->).
  repeat split; assumption.
Qed.

Lemma save_and_close_saves_stripped_witness :
  let st := demo_state (str "videos") None in
  load_config
    (config_file (snd (save_and_close (str " rtmp://host/live2 ") (str "secret 123  ") st)))
  = Ret [(str "YOUTUBE_URL", str "rtmp://host/live2");
         (str "STREAM_KEY", str "secret 123")].
Proof.
  intros st.
  apply (proj1 (save_and_close_saves_stripped
                  (str " rtmp://host/live2 ") (str "secret 123  ") st
                  eq_refl eq_refl eq_refl)).
Defined.

(** X14. Settings saved through the settings window are the ones the next
    [start_stream] uses: when that call finds a media file, prints its line
    and [Popen] does not raise, the command ends with the stripped URL, a
    slash and the stripped key, while the values a settings window shows
    are still those read at start-up. *)
Theorem saved_settings_take_effect
    os st yt_url_entry stream_key_entry newest_mp4 :
  unicode_text yt_url_entry = true -> unicode_text stream_key_entry = true ->
  fst (save_and_close yt_url_entry stream_key_entry st) = true ->
  py_not (VIDEO_FOLDER st) = false ->
  get_newest_mp4 os (VIDEO_FOLDER st) = Ret (Some newest_mp4) ->
  py_not newest_mp4 = false ->
  print_raises os (str "Streaming: " ++ newest_mp4) = None ->
  Popen_raises os
    (ffmpeg_command newest_mp4 (strip yt_url_entry) (strip stream_key_entry)) = None ->
  let st1 := snd (save_and_close yt_url_entry stream_key_entry st) in
  fst (start_stream os st1) = Started (os_path_basename os newest_mp4)
  /\ Popen_calls (snd (start_stream os st1))
     = Popen_calls st
       ++ [ffmpeg_command newest_mp4 (strip yt_url_entry) (strip stream_key_entry)]
  /\ open_settings (snd (start_stream os st1)) = open_settings st.
Proof.
  intros Hu Hk Hsaved Hfolder Hnewest Htruthy Hprint Hchild. cbn zeta.
  pose proof (load_config_save_and_close _ _ st Hu Hk Hsaved) as Hload.
  destruct (save_and_close_accepted _ _ st Hsaved) as (_ & Hkey & Hst).
  rewrite Hst in *.
  rewrite (start_stream_started os _ newest_mp4 (strip yt_url_entry)
             (strip stream_key_entry)).
  - repeat split.
  - constructor; try assumption.
    eexists. split; [exact Hload|]. split; reflexivity.
Qed.

Lemma saved_settings_take_effect_witness :
  let st := demo_state (str "videos") (create_config_file None) in
  let st1 := snd (save_and_close (str "rtmp://host/live2 ") (str " secret123") st) in
  fst (start_stream demo_os st1) = Started (str "b.mp4")
  /\ Popen_calls (snd (start_stream demo_os st1))
     = [ffmpeg_command (str "videos/b.mp4") (str "rtmp://host/live2") (str "secret123")]
  /\ open_settings (snd (start_stream demo_os st1))
     = (str "rtmp://a.rtmp.youtube.com/live2", str "").
Proof.
  intros st st1.
  apply (saved_settings_take_effect demo_os st (str "rtmp://host/live2 ")
           (str " secret123") (str "videos/b.mp4")); reflexivity.
Defined.

(* ================================================================== *)
(** * The main loop *)
(* ================================================================== *)

Lemma mainloop_cons a actions w :
  mainloop (a :: actions) w = mainloop actions (step a w).
Proof. reflexivity. Qed.

(** An invariant of the program state that every callback keeps holds
    after any list of actions. *)
Lemma mainloop_invariant (P : Window -> Prop) :
  (forall a w, P w -> P (step a w)) ->
  forall actions w, P w -> P (mainloop actions w).
Proof.
  intros Hstep. induction actions as [|a actions IH]; intros w Hw; [exact Hw|].
  rewrite mainloop_cons. apply IH, Hstep, Hw.
Qed.

Lemma start_stream_unchanged_fields os st :
  let st' := snd (start_stream os st) in
  config_file st' = config_file st
  /\ VIDEO_FOLDER st' = VIDEO_FOLDER st
  /\ YOUTUBE_URL st' = YOUTUBE_URL st
  /\ STREAM_KEY st' = STREAM_KEY st
  /\ terminate_calls st' = terminate_calls st
  /\ (Popen_calls st' = Popen_calls st
      \/ exists cmd, Popen_calls st' = Popen_calls st ++ [cmd]).
Proof.
  start_stream_paths os st; cbn [snd];
    repeat (split; [reflexivity|]);
    try (left; reflexivity).
  right. eexists. reflexivity.
Qed.

Lemma save_and_close_unchanged_fields u k st :
  let st' := snd (save_and_close u k st) in
  VIDEO_FOLDER st' = VIDEO_FOLDER st
  /\ YOUTUBE_URL st' = YOUTUBE_URL st
  /\ STREAM_KEY st' = STREAM_KEY st
  /\ ffmpeg_process st' = ffmpeg_process st
  /\ stream_status_label st' = stream_status_label st
  /\ Popen_calls st' = Popen_calls st
  /\ terminate_calls st' = terminate_calls st.
Proof.
  unfold save_and_close. cbn zeta.
  destruct (py_not (strip u) || py_not (strip k)); repeat split.
Qed.

Lemma save_and_close_failing_unchanged_fields f u k st :
  let st' := snd (save_and_close_failing f u k st) in
  VIDEO_FOLDER st' = VIDEO_FOLDER st
  /\ YOUTUBE_URL st' = YOUTUBE_URL st
  /\ STREAM_KEY st' = STREAM_KEY st
  /\ ffmpeg_process st' = ffmpeg_process st
  /\ stream_status_label st' = stream_status_label st
  /\ Popen_calls st' = Popen_calls st
  /\ terminate_calls st' = terminate_calls st.
Proof.
  unfold save_and_close_failing, save_config_failing. cbn zeta.
  destruct (py_not (strip u) || py_not (strip k)); [repeat split|].
  destruct f; repeat split.
Qed.

Lemma select_folder_unchanged_fields folder st :
  let st' := select_folder folder st in
  YOUTUBE_URL st' = YOUTUBE_URL st
  /\ STREAM_KEY st' = STREAM_KEY st
  /\ config_file st' = config_file st
  /\ ffmpeg_process st' = ffmpeg_process st
  /\ stream_status_label st' = stream_status_label st
  /\ Popen_calls st' = Popen_calls st
  /\ terminate_calls st' = terminate_calls st.
Proof. unfold select_folder. destruct (py_not folder); repeat split. Qed.

Lemma program_click_select_folder folder w :
  program (click_select_folder folder w) = select_folder folder (program w).
Proof.
  unfold click_select_folder, select_folder. destruct (py_not folder); reflexivity.
Qed.

(** ** Handles *)

Lemma handles_ok_same st st' :
  ffmpeg_process st' = ffmpeg_process st ->
  Popen_calls st' = Popen_calls st ->
  terminate_calls st' = terminate_calls st ->
  handles_ok st -> handles_ok st'.
Proof. unfold handles_ok. intros -> -> ->. exact (fun H => H). Qed.

Lemma handles_ok_started os st newest_mp4 youtube_url stream_key :
  handles_ok st ->
  handles_ok (started_state os st newest_mp4 youtube_url stream_key).
Proof.
  intros (Hnd & Hterm & Hheld). unfold handles_ok, started_state.
  cbn [spawned print terminate_calls Popen_calls ffmpeg_process].
  rewrite length_app. cbn [length]. split; [exact Hnd|]. split.
  - intros p Hp. specialize (Hterm p Hp). lia.
  - intros p [= <-]. split; [lia|]. intros Hin.
    specialize (Hterm _ Hin). lia.
Qed.

Lemma handles_ok_stop st : handles_ok st -> handles_ok (stop_stream st).
Proof.
  intros H. pose proof H as (Hnd & Hterm & Hheld). unfold stop_stream.
  destruct (ffmpeg_process st) as [p|] eqn:E; [|exact H].
  destruct (Hheld p eq_refl) as [Hlt Hnot].
  unfold handles_ok. cbn [show terminated terminate_calls Popen_calls ffmpeg_process].
  split; [|split].
  - apply NoDup_app; [exact Hnd | repeat constructor; intros [] |].
    intros q Hq [<- | []]. exact (Hnot Hq).
  - intros q Hq. apply in_app_or in Hq as [Hq | [<- | []]]; [apply Hterm, Hq | exact Hlt].
  - discriminate.
Qed.

Lemma handles_ok_step a w : handles_ok (program w) -> handles_ok (program (step a w)).
Proof.
  intros H. destruct a as [folder | os | | u k | f u k]; cbn [step program].
  - rewrite program_click_select_folder.
    destruct (select_folder_unchanged_fields folder (program w))
      as (_ & _ & _ & Hp & _ & Hc & Ht).
    exact (handles_ok_same _ _ Hp Hc Ht H).
  - destruct (start_stream_cases os (program w))
      as [(newest_mp4 & youtube_url & stream_key & ->) | (_ & Hp & _ & Hc & Ht)].
    + apply handles_ok_started, H.
    + exact (handles_ok_same _ _ Hp Hc Ht H).
  - apply handles_ok_stop, H.
  - destruct (save_and_close_unchanged_fields u k (program w))
      as (_ & _ & _ & Hp & _ & Hc & Ht).
    exact (handles_ok_same _ _ Hp Hc Ht H).

  - destruct (save_and_close_failing_unchanged_fields f u k (program w))
      as (_ & _ & _ & Hp & _ & Hc & Ht).
    exact (handles_ok_same _ _ Hp Hc Ht H).
Qed.

Lemma module_init_fields file st0 :
  module_init file = Ret st0 ->
  VIDEO_FOLDER st0 = [] /\ ffmpeg_process st0 = None
  /\ Popen_calls st0 = [] /\ terminate_calls st0 = []
  /\ config_file st0 = create_config_file file
  /\ settings_loadable st0
  /\ exists config,
       load_config (create_config_file file) = Ret config
       /\ dict_get config (str "YOUTUBE_URL") = Ret (YOUTUBE_URL st0)
       /\ dict_get config (str "STREAM_KEY") = Ret (STREAM_KEY st0).
Proof.
  unfold module_init, settings_loadable.
  destruct (load_config (create_config_file file)) as [config|e] eqn:Hload;
    cbn [bind]; [|discriminate].
  destruct (dict_get config (str "YOUTUBE_URL")) as [yt_url|e] eqn:Hurl;
    cbn [bind]; [|discriminate].
  destruct (dict_get config (str "STREAM_KEY")) as [stream_key|e] eqn:Hkey;
    cbn [bind]; [|discriminate].
  intros [= <-]. cbn [VIDEO_FOLDER ffmpeg_process Popen_calls terminate_calls
                        config_file YOUTUBE_URL STREAM_KEY].
  repeat split; try reflexivity.
  - exists config, yt_url, stream_key. rewrite Hload. repeat split; assumption.
  - exists config. repeat split; assumption.
Qed.

Lemma handles_ok_init file st0 : module_init file = Ret st0 -> handles_ok st0.
Proof.
  intros Hinit.
  destruct (module_init_fields file st0 Hinit) as (_ & Hp & Hc & Ht & _).
  unfold handles_ok. rewrite Hp, Hc, Ht. split; [constructor|].
  split; [intros p [] | discriminate].
Qed.

Lemma NoDup_bounded_length (l : list nat) n :
  NoDup l -> (forall p, In p l -> (p < n)%nat) -> (length l <= n)%nat.
Proof.
  intros Hnd Hb. rewrite <- (length_seq n 0).
  apply NoDup_incl_length; [exact Hnd|].
  intros p Hp. apply in_seq. specialize (Hb p Hp). lia.
Qed.

(** X15. After start-up and any list of user actions, the held handle (if
    any) names a process that was started and was not sent [terminate], no
    process was sent [terminate] twice, and there are at most as many
    [terminate] calls as [Popen] calls. *)
Theorem handles_ok_always file st0 actions :
  module_init file = Ret st0 ->
  let st := program (mainloop actions (main_window st0)) in
  handles_ok st
  /\ (length (terminate_calls st) <= length (Popen_calls st))%nat.
Proof.
  intros Hinit. cbn zeta.
  assert (H : handles_ok (program (mainloop actions (main_window st0)))).
  { apply (mainloop_invariant (fun w => handles_ok (program w)) handles_ok_step).
    apply (handles_ok_init file st0 Hinit). }
  split; [exact H|].
  destruct H as (Hnd & Hterm & _). apply NoDup_bounded_length; assumption.
Qed.

(** ** Orphans *)

Lemma orphan_step p a w : orphan p (program w) -> orphan p (program (step a w)).
Proof.
  intros (Hlt & Hheld & Hterm). destruct a as [folder | os | | u k | f u k]; cbn [step program].
  - rewrite program_click_select_folder.
    destruct (select_folder_unchanged_fields folder (program w))
      as (_ & _ & _ & Hp & _ & Hc & Ht).
    unfold orphan. rewrite Hp, Hc, Ht. repeat split; assumption.
  - destruct (start_stream_cases os (program w))
      as [(newest_mp4 & youtube_url & stream_key & ->) | (_ & Hp & _ & Hc & Ht)].
    + unfold orphan, started_state.
      cbn [snd spawned print terminate_calls Popen_calls ffmpeg_process].
      rewrite length_app. cbn [length]. split; [lia|]. split; [|exact Hterm].
      intros [= E]. lia.
    + unfold orphan. rewrite Hp, Hc, Ht. repeat split; assumption.
  - unfold orphan, stop_stream.
    destruct (ffmpeg_process (program w)) as [q|] eqn:E;
      [|rewrite E; repeat split; assumption || discriminate].
    cbn [show terminated terminate_calls Popen_calls ffmpeg_process].
    split; [exact Hlt|]. split; [discriminate|].
    intros Hin. apply in_app_or in Hin as [Hin | [<- | []]];
      [exact (Hterm Hin) | exact (Hheld eq_refl)].
  - destruct (save_and_close_unchanged_fields u k (program w))
      as (_ & _ & _ & Hp & _ & Hc & Ht).
    unfold orphan. rewrite Hp, Hc, Ht. repeat split; assumption.

  - destruct (save_and_close_failing_unchanged_fields f u k (program w))
      as (_ & _ & _ & Hp & _ & Hc & Ht).
    unfold orphan. rewrite Hp, Hc, Ht. repeat split; assumption.
Qed.

(** X16. The process that a second successful [start_stream] replaces is
    lost: whatever the user does afterwards, it is never held again and is
    never sent [terminate]. *)
Theorem replaced_process_is_never_terminated
    os st old newest_mp4 youtube_url stream_key label actions :
  handles_ok st ->
  ffmpeg_process st = Some old ->
  start_passes os st newest_mp4 youtube_url stream_key ->
  let w := {| program := snd (start_stream os st); folder_label := label |} in
  orphan old (program (mainloop actions w)).
Proof.
  intros (_ & _ & Hheld) Hold Hpass. cbn zeta.
  apply (mainloop_invariant (fun w => orphan old (program w)) (orphan_step old)).
  cbn [program]. rewrite (start_stream_started _ _ _ _ _ Hpass). cbn [snd].
  destruct (Hheld old Hold) as [Hlt Hnot].
  unfold orphan, started_state.
  cbn [spawned print terminate_calls Popen_calls ffmpeg_process].
  rewrite length_app. cbn [length]. split; [lia|]. split; [|exact Hnot].
  intros [= E]. lia.
Qed.

Lemma handles_ok_always_witness :
  let st := program
              (mainloop [ClickSelectFolder (str "videos");
                         ClickSave (str "rtmp://host/live2") (str "secret123");
                         ClickStart demo_os; ClickStart demo_os; ClickStop; ClickStop]
                 (main_window (demo_state (str "") (create_config_file None)))) in
  handles_ok st
  /\ (length (terminate_calls st) <= length (Popen_calls st))%nat.
Proof.
  apply (handles_ok_always None (demo_state (str "") (create_config_file None))).
  reflexivity.
Defined.

Example double_start_leaves_a_child :
  let st := program
              (mainloop [ClickSelectFolder (str "videos");
                         ClickSave (str "rtmp://host/live2") (str "secret123");
                         ClickStart demo_os; ClickStart demo_os; ClickStop; ClickStop]
                 (main_window (demo_state (str "") (create_config_file None)))) in
  length (Popen_calls st) = 2%nat /\ terminate_calls st = [1%nat]
  /\ ffmpeg_process st = None /\ status st = Stopped.
Proof. cbv zeta. repeat split; reflexivity. Qed.

Lemma replaced_process_is_never_terminated_witness :
  let st := snd (start_stream demo_os (demo_state (str "videos") demo_settings)) in
  orphan 0%nat
    (program
       (mainloop [ClickStop; ClickStart demo_os; ClickStop]
          {| program := snd (start_stream demo_os st);
             folder_label := folder_label (main_window st) |})).
Proof.
  intros st.
  apply (replaced_process_is_never_terminated demo_os st 0%nat (str "videos/b.mp4")
           (str "rtmp://host/live2") (str "secret123")).
  - unfold handles_ok. cbn. split; [constructor|]. split; [intros p []|].
    intros p [= <-]. split; [lia | intros []].
  - reflexivity.
  - constructor; try reflexivity.
    exists [(str "YOUTUBE_URL", str "rtmp://host/live2");
            (str "STREAM_KEY", str "secret123")].
    repeat split; reflexivity.
Defined.

(** ** What the callbacks never change *)

Lemma open_settings_step a w :
  open_settings (program (step a w)) = open_settings (program w).
Proof.
  unfold open_settings. destruct a as [folder | os | | u k | f u k]; cbn [step program].
  - rewrite program_click_select_folder.
    destruct (select_folder_unchanged_fields folder (program w)) as (-> & -> & _).
    reflexivity.
  - destruct (start_stream_unchanged_fields os (program w)) as (_ & _ & -> & -> & _).
    reflexivity.
  - unfold stop_stream. destruct (ffmpeg_process (program w)); reflexivity.
  - destruct (save_and_close_unchanged_fields u k (program w)) as (_ & -> & -> & _).
    reflexivity.

  - destruct (save_and_close_failing_unchanged_fields f u k (program w)) as (_ & -> & -> & _).
    reflexivity.
Qed.

(** X17. Whatever the user does, saving new settings included, a settings
    window opens with the two values the settings file held when the
    program started. *)
Theorem settings_window_shows_startup_values file st0 actions config :
  module_init file = Ret st0 ->
  load_config (create_config_file file) = Ret config ->
  let st := program (mainloop actions (main_window st0)) in
  dict_get config (str "YOUTUBE_URL") = Ret (fst (open_settings st))
  /\ dict_get config (str "STREAM_KEY") = Ret (snd (open_settings st)).
Proof.
  intros Hinit Hload. cbn zeta.
  assert (H : open_settings (program (mainloop actions (main_window st0)))
              = open_settings st0).
  { apply (mainloop_invariant
             (fun w => open_settings (program w) = open_settings st0)).
    - intros a w Hw. rewrite open_settings_step. exact Hw.
    - reflexivity. }
  rewrite H. cbn [open_settings fst snd].
  destruct (module_init_fields file st0 Hinit)
    as (_ & _ & _ & _ & _ & _ & config' & Hload' & Hurl & Hkey).
  rewrite Hload in Hload'. injection Hload' as <-. split; assumption.
Qed.

Lemma settings_window_shows_startup_values_witness :
  open_settings
    (program
       (mainloop [ClickSave (str "rtmp://host/live2") (str "secret123"); ClickStop]
          (main_window (demo_state (str "") (create_config_file None)))))
  = (str "rtmp://a.rtmp.youtube.com/live2", str "").
Proof.
  destruct (settings_window_shows_startup_values None
              (demo_state (str "") (create_config_file None))
              [ClickSave (str "rtmp://host/live2") (str "secret123"); ClickStop]
              default_config eq_refl eq_refl) as [Hurl Hkey].
  cbn zeta in Hurl, Hkey.
  destruct (open_settings _) as [u k]. cbn [fst snd] in Hurl, Hkey.
  injection Hurl as <-. injection Hkey as <-. reflexivity.
Defined.

Lemma VIDEO_FOLDER_step a w :
  py_not (VIDEO_FOLDER (program w)) = false ->
  py_not (VIDEO_FOLDER (program (step a w))) = false.
Proof.
  intros H. destruct a as [folder | os | | u k | f u k]; cbn [step program].
  - unfold click_select_folder, select_folder.
    destruct (py_not folder) eqn:E; [exact H | exact E].
  - destruct (start_stream_unchanged_fields os (program w)) as (_ & -> & _). exact H.
  - unfold stop_stream. destruct (ffmpeg_process (program w)); exact H.
  - destruct (save_and_close_unchanged_fields u k (program w)) as (-> & _). exact H.

  - destruct (save_and_close_failing_unchanged_fields f u k (program w)) as (-> & _). exact H.
Qed.

(** X18. Once a folder has been selected, no action empties
    [VIDEO_FOLDER] again (a cancelled dialog keeps the folder), so
    [start_stream] never again ends with the select-a-folder error. *)
Theorem folder_stays_selected folder actions w os :
  py_not folder = false ->
  let st := program (mainloop actions (click_select_folder folder w)) in
  py_not (VIDEO_FOLDER st) = false
  /\ fst (start_stream os st) <> NoFolderSelected.
Proof.
  intros Hfolder. cbn zeta.
  assert (H : py_not (VIDEO_FOLDER
                        (program (mainloop actions (click_select_folder folder w))))
              = false).
  { apply (mainloop_invariant
             (fun w => py_not (VIDEO_FOLDER (program w)) = false) VIDEO_FOLDER_step).
    unfold click_select_folder, select_folder. rewrite Hfolder. exact Hfolder. }
  split; [exact H | apply start_stream_folder_selected, H].
Qed.

Lemma folder_stays_selected_witness :
  let st := program
              (mainloop [ClickSelectFolder (str ""); ClickStop]
                 (click_select_folder (str "videos")
                    (main_window (demo_state (str "") demo_settings)))) in
  py_not (VIDEO_FOLDER st) = false
  /\ fst (start_stream demo_os st) <> NoFolderSelected.
Proof.
  apply (folder_stays_selected (str "videos")). reflexivity.
Defined.

Lemma label_names_folder_step a w :
  label_names_folder w -> label_names_folder (step a w).
Proof.
  unfold label_names_folder.
  intros H. destruct a as [folder | os | | u k | f u k]; cbn [step program folder_label].
  - unfold click_select_folder, select_folder.
    destruct folder as [|c folder]; [exact H | reflexivity].
  - destruct (start_stream_unchanged_fields os (program w)) as (_ & -> & _). exact H.
  - unfold stop_stream. destruct (ffmpeg_process (program w)); exact H.
  - destruct (save_and_close_unchanged_fields u k (program w)) as (-> & _). exact H.

  - destruct (save_and_close_failing_unchanged_fields f u k (program w)) as (-> & _). exact H.
Qed.

(** X19. After start-up and any list of user actions, the folder label
    shows the start-up text while no folder is selected and names exactly
    the selected folder otherwise. *)
Theorem folder_label_names_selected_folder file st0 actions :
  module_init file = Ret st0 ->
  label_names_folder (mainloop actions (main_window st0)).
Proof.
  intros Hinit. apply (mainloop_invariant label_names_folder label_names_folder_step).
  unfold label_names_folder. cbn [main_window program folder_label].
  destruct (module_init_fields file st0 Hinit) as (-> & _). reflexivity.
Qed.

Lemma folder_label_names_selected_folder_witness :
  folder_label
    (mainloop [ClickSelectFolder (str "videos"); ClickSelectFolder (str "");
               ClickStart demo_os]
       (main_window (demo_state (str "") (create_config_file None))))
  = {| text := str "Selected Folder: videos"; fg := str "green" |}.
Proof.
  exact (folder_label_names_selected_folder None
           (demo_state (str "") (create_config_file None))
           [ClickSelectFolder (str "videos"); ClickSelectFolder (str "");
            ClickStart demo_os] eq_refl).
Defined.

(** ** The status in every state *)

Lemma handle_iff_streaming_stop st :
  handle_iff_streaming st -> handle_iff_streaming (stop_stream st).
Proof.
  intros Hinv. unfold handle_iff_streaming.
  rewrite stop_stream_clears, status_stop_stream.
  destruct (ffmpeg_process st) eqn:E.
  - split; [intros H; destruct H; reflexivity | intros [f Hf]; discriminate Hf].
  - unfold handle_iff_streaming in Hinv. rewrite E in Hinv. exact Hinv.
Qed.

Lemma handle_iff_streaming_step a w :
  handle_iff_streaming (program w) -> handle_iff_streaming (program (step a w)).
Proof.
  intros H. destruct a as [folder | os | | u k | f u k]; cbn [step program].
  - rewrite program_click_select_folder.
    destruct (select_folder_unchanged_fields folder (program w))
      as (_ & _ & _ & Hp & Hl & _).
    exact (handle_iff_streaming_same _ _ Hp Hl H).
  - destruct (start_stream_cases os (program w))
      as [(newest_mp4 & youtube_url & stream_key & ->) | (_ & Hp & Hl & _)].
    + apply handle_iff_streaming_started.
    + exact (handle_iff_streaming_same _ _ Hp Hl H).
  - apply handle_iff_streaming_stop, H.
  - destruct (save_and_close_unchanged_fields u k (program w))
      as (_ & _ & _ & Hp & Hl & _).
    exact (handle_iff_streaming_same _ _ Hp Hl H).

  - destruct (save_and_close_failing_unchanged_fields f u k (program w))
      as (_ & _ & _ & Hp & Hl & _).
    exact (handle_iff_streaming_same _ _ Hp Hl H).
Qed.

(** X20. After start-up and any list of user actions (folder selection
    and saving settings included), a process handle is held exactly when
    the status is [Streaming]. *)
Theorem handle_iff_streaming_always file st0 actions :
  module_init file = Ret st0 ->
  handle_iff_streaming (program (mainloop actions (main_window st0))).
Proof.
  intros Hinit.
  apply (mainloop_invariant (fun w => handle_iff_streaming (program w))
           handle_iff_streaming_step).
  cbn [main_window program].
  destruct (module_init_state file st0 Hinit) as [Hp Hl].
  unfold handle_iff_streaming, status. rewrite Hp, Hl. split.
  - intros H. destruct H. reflexivity.
  - intros [f Hf]. discriminate Hf.
Qed.

Lemma handle_iff_streaming_always_witness :
  handle_iff_streaming
    (program
       (mainloop [ClickSelectFolder (str "videos");
                  ClickSave (str "rtmp://host/live2") (str "secret123");
                  ClickStart demo_os; ClickSelectFolder (str "empty");
                  ClickStart demo_os]
          (main_window (demo_state (str "") (create_config_file None))))).
Proof.
  exact (handle_iff_streaming_always None
           (demo_state (str "") (create_config_file None)) _ eq_refl).
Defined.

(** ** The settings file in every state *)

Lemma settings_loadable_same st st' :
  config_file st' = config_file st -> settings_loadable st -> settings_loadable st'.
Proof. unfold settings_loadable. intros ->. exact (fun H => H). Qed.

Lemma settings_loadable_save u k st :
  unicode_text u = true -> unicode_text k = true ->
  settings_loadable st -> settings_loadable (snd (save_and_close u k st)).
Proof.
  intros Hu Hk H.
  destruct (fst (save_and_close u k st)) eqn:Hsaved.
  - unfold settings_loadable.
    rewrite (load_config_save_and_close u k st Hu Hk Hsaved).
    eexists _, _, _. split; [reflexivity|]. split; reflexivity.
  - revert H. apply settings_loadable_same.
    rewrite (save_and_close_rejected u k st Hsaved). reflexivity.
Qed.

Lemma settings_loadable_step a w :
  (match a with
   | ClickSave u k => unicode_text u && unicode_text k
   | ClickSaveFails (WriteRaises _ _) _ _ => false
   | _ => true
   end) = true ->
  settings_loadable (program w) -> settings_loadable (program (step a w)).
Proof.
  intros Ha H. destruct a as [folder | os | | u k | f u k]; cbn [step program].
  - rewrite program_click_select_folder. revert H. apply settings_loadable_same.
    apply (select_folder_unchanged_fields folder (program w)).
  - revert H. apply settings_loadable_same.
    apply (start_stream_unchanged_fields os (program w)).
  - revert H. apply settings_loadable_same.
    unfold stop_stream. destruct (ffmpeg_process (program w)); reflexivity.
  - apply andb_true_iff in Ha as [Hu Hk]. apply settings_loadable_save; assumption.
  - destruct f as [e | kept e]; [|discriminate Ha].
    revert H. apply settings_loadable_same.
    unfold save_and_close_failing, save_config_failing. cbn zeta.
    destruct (py_not (strip u) || py_not (strip k)); reflexivity.
Qed.

Lemma settings_loadable_mainloop actions : forall w,
  saves_text actions = true ->
  settings_loadable (program w) ->
  settings_loadable (program (mainloop actions w)).
Proof.
  induction actions as [|a actions IH]; intros w Hsaves H; [exact H|].
  rewrite mainloop_cons. apply IH.
  - destruct a as [folder | os | | u k | [e | kept e] u k]; try exact Hsaves.
    + cbn [saves_text] in Hsaves. apply andb_true_iff in Hsaves. apply Hsaves.
    + discriminate Hsaves.
  - apply settings_loadable_step; [|exact H].
    destruct a as [folder | os | | u k | [e | kept e] u k]; try reflexivity.
    + cbn [saves_text] in Hsaves. apply andb_true_iff in Hsaves. apply Hsaves.
    + discriminate Hsaves.
Qed.

(** X21. After a successful start-up, as long as the entries saved are
    Unicode text and no write fails after [open] has emptied the file, the
    settings file loads and holds both members in every state the user can
    reach. *)
Theorem settings_file_stays_loadable file st0 actions :
  module_init file = Ret st0 ->
  saves_text actions = true ->
  settings_loadable (program (mainloop actions (main_window st0))).
Proof.
  intros Hinit Hsaves. apply settings_loadable_mainloop; [exact Hsaves|].
  apply (module_init_fields file st0 Hinit).
Qed.

Lemma settings_file_stays_loadable_witness :
  settings_loadable
    (program
       (mainloop [ClickSave (str " rtmp://host/live2") (str "secret123");
                  ClickSave (str "") (str "other");
                  ClickSaveFails (OpenRaises (OSError 13)) (str "u") (str "k");
                  ClickStop]
          (main_window (demo_state (str "") (create_config_file None))))).
Proof.
  apply (settings_file_stays_loadable None
           (demo_state (str "") (create_config_file None))); reflexivity.
Defined.

(* ================================================================== *)
(** * More on the settings file *)
(* ================================================================== *)

Section JsonMore.
Import Json.
Local Open Scope N_scope.

Lemma printable_hexdigit k : k < 16 -> printable (hexdigit k) = true.
Proof.
  intros H.
  assert (E : In k (map N.of_nat (seq 0 16))).
  { apply in_map_iff. exists (N.to_nat k). split; [lia|]. apply in_seq. lia. }
  simpl in E.
  repeat (destruct E as [<- | E]; [reflexivity|]). destruct E.
Qed.

Lemma printable_u_escape n : forallb printable (u_escape n) = true.
Proof.
  unfold u_escape. cbn [forallb].
  rewrite !printable_hexdigit by (apply nibble_lt || apply (nibble_lt n 0)).
  reflexivity.
Qed.

Lemma printable_replace c : forallb printable (replace c) = true.
Proof.
  unfold replace.
  repeat match goal with
  | |- context [if ?b then _ else _] => destruct b; [reflexivity|]
  end.
  destruct (c <? 65536); [apply printable_u_escape|].
  cbv zeta. rewrite forallb_app, !printable_u_escape. reflexivity.
Qed.

Lemma printable_escape s : forallb printable (escape s) = true.
Proof.
  induction s as [|c s IH]; [reflexivity|].
  unfold escape in *. cbn [flat_map]. rewrite forallb_app, IH, andb_true_r.
  destruct (ESCAPE_ASCII c) eqn:E; [apply printable_replace|].
  cbn [forallb]. rewrite andb_true_r.
  unfold ESCAPE_ASCII in E. apply orb_false_elim in E as [_ E].
  apply negb_false_iff in E. exact E.
Qed.

Lemma printable_encode s : forallb printable (py_encode_basestring_ascii s) = true.
Proof.
  unfold py_encode_basestring_ascii. cbn [forallb].
  rewrite forallb_app, printable_escape. reflexivity.
Qed.

Lemma printable_items d : forall first, forallb printable (iterencode_items first d) = true.
Proof.
  induction d as [|[k v] d IH]; intros first; [reflexivity|].
  cbn [iterencode_items]. rewrite !forallb_app, !printable_encode, IH.
  destruct first; reflexivity.
Qed.

Lemma printable_dumps d : forallb printable (dumps d) = true.
Proof.
  unfold dumps. destruct d as [|kv d]; [reflexivity|].
  cbn [forallb]. rewrite forallb_app, printable_items. reflexivity.
Qed.

End JsonMore.

(** X22. Whatever the two strings are, the text [save_config] writes
    holds printable ASCII characters only. *)
Theorem settings_file_is_printable_ascii yt_url stream_key st :
  exists content,
    config_file (save_config yt_url stream_key st) = Some content
    /\ forallb printable content = true.
Proof.
  eexists. split; [reflexivity|]. apply printable_dumps.
Qed.

Section JsonSurrogates.
Import Json.
Local Open Scope N_scope.

Lemma code_points_Forall s : code_points s = true -> Forall code_point s.
Proof.
  unfold code_points. rewrite forallb_forall, Forall_forall.
  intros H c Hc. apply N.ltb_lt, H, Hc.
Qed.

Lemma join_surrogates_cons c s :
  (high_surrogate c && match s with c' :: _ => low_surrogate c' | [] => false end)
  = false ->
  join_surrogates (c :: s) = c :: join_surrogates s.
Proof.
  destruct s as [|c' s']; [reflexivity|]. cbn [join_surrogates].
  intros ->. reflexivity.
Qed.

Lemma join_surrogates_pair c c' s :
  high_surrogate c = true -> low_surrogate c' = true ->
  join_surrogates (c :: c' :: s)
  = (0x10000 + N.lor (N.shiftl (c - 0xd800) 10) (c' - 0xdc00)) :: join_surrogates s.
Proof. cbn [join_surrogates]. intros -> ->. reflexivity. Qed.

Lemma escape_cons c s :
  escape (c :: s) = (if ESCAPE_ASCII c then replace c else [c]) ++ escape s.
Proof. reflexivity. Qed.

Lemma escape_surrogate c : 0xd800 <= c -> c <= 0xdfff ->
  (if ESCAPE_ASCII c then replace c else [c]) = u_escape c.
Proof.
  intros Hlo Hhi.
  assert (E : ESCAPE_ASCII c = true).
  { unfold ESCAPE_ASCII. apply orb_true_iff. right. apply negb_true_iff.
    apply andb_false_iff. right. apply N.leb_gt. lia. }
  rewrite E. unfold replace.
  repeat match goal with
  | |- context [?a =? ?b] => destruct (N.eqb_spec a b); [lia|]
  end.
  destruct (N.ltb_spec c 0x10000); [reflexivity | lia].
Qed.

Lemma escape_no_low_ahead_head s rest :
  Forall code_point s ->
  match s with c' :: _ => low_surrogate c' = false | [] => True end ->
  no_low_escape_ahead (escape s ++ 34 :: rest).
Proof.
  intros Hcp Hlow Hstart.
  destruct s as [|c' s']; [discriminate Hstart|].
  apply Forall_inv in Hcp. unfold code_point in Hcp.
  rewrite escape_cons, <- app_assoc in *.
  destruct (ESCAPE_ASCII c') eqn:He.
  - destruct (replace_replaced c' He) as [esc Hb Hu | Hlt | Hge].
    + cbn in Hstart. rewrite Hu in Hstart. discriminate.
    + exists c'. split; [|exact Hlow].
      rewrite u_escape_hex4. cbn [app skipn].
      apply decode_hex4. exact Hlt.
    + exists (surrogate1 c'). pose proof (surrogate1_range c' Hge Hcp).
      split.
      * rewrite u_escape_hex4, <- app_assoc. cbn [app skipn].
        apply decode_hex4. lia.
      * unfold low_surrogate. apply andb_false_iff. left. apply N.leb_gt. lia.
  - apply ESCAPE_ASCII_false in He as (_ & H92 & _).
    cbn in Hstart. rewrite H92 in Hstart. discriminate.
Qed.

Lemma scan_u_escape_pair h l R :
  high_surrogate h = true -> low_surrogate l = true ->
  scan_u_escape (hex4 h ++ u_escape l ++ R)
  = Ret (0x10000 + N.lor (N.shiftl (h - 0xd800) 10) (l - 0xdc00), R).
Proof.
  intros Hh Hl. unfold scan_u_escape.
  assert (h < 0x10000 /\ l < 0x10000) as [Hh' Hl'].
  { unfold high_surrogate, low_surrogate in *.
    apply andb_true_iff in Hh as [_ Hh]. apply andb_true_iff in Hl as [_ Hl].
    apply N.leb_le in Hh, Hl. lia. }
  rewrite decode_hex4 by exact Hh'. cbn [bind]. rewrite skipn_hex4.
  rewrite Hh, u_escape_hex4. cbn [starts_with_u_escape app andb N.eqb Pos.eqb skipn].
  rewrite decode_hex4 by exact Hl'. cbn [bind]. rewrite Hl. reflexivity.
Qed.

Lemma BACKSLASH_not_high esc c : BACKSLASH esc = Ret c -> high_surrogate c = false.
Proof.
  unfold BACKSLASH.
  repeat match goal with
  | |- context [if ?b then _ else _] => destruct b; [intros [= <-]; reflexivity|]
  end.
  discriminate.
Qed.

Lemma scanstring_loop_join n : forall s rest fuel,
  (length s <= n)%nat -> code_points s = true -> (length s < fuel)%nat ->
  scanstring_loop fuel (escape s ++ 34 :: rest) = Ret (join_surrogates s, rest).
Proof.
  induction n as [|n IH]; intros s rest fuel Hn Hcp Hfuel.
  - destruct s; [|cbn [length] in Hn; lia].
    destruct fuel; [inversion Hfuel|]. reflexivity.
  - destruct s as [|c s]; [destruct fuel; [inversion Hfuel|]; reflexivity|].
    destruct fuel as [|fuel]; [inversion Hfuel|].
    cbn [length] in Hn, Hfuel.
    pose proof Hcp as Hcps. unfold code_points in Hcps. cbn [forallb] in Hcps.
    apply andb_true_iff in Hcps as [Hc Hs]. apply N.ltb_lt in Hc.
    fold (code_points s) in Hs.
    destruct (high_surrogate c
              && match s with c' :: _ => low_surrogate c' | [] => false end) eqn:Hpair.
    + (* a pair: both escapes are read in one round *)
      apply andb_true_iff in Hpair as [Hh Hl].
      destruct s as [|c' s']; [discriminate Hl|].
      rewrite (join_surrogates_pair c c' s' Hh Hl).
      assert (Hc' : 0xd800 <= c /\ c <= 0xdfff).
      { unfold high_surrogate in Hh. apply andb_true_iff in Hh as [H1 H2].
        apply N.leb_le in H1, H2. lia. }
      assert (Hl' : 0xd800 <= c' /\ c' <= 0xdfff).
      { unfold low_surrogate in Hl. apply andb_true_iff in Hl as [H1 H2].
        apply N.leb_le in H1, H2. lia. }
      rewrite !escape_cons, <- !app_assoc.
      rewrite (escape_surrogate c), (escape_surrogate c') by lia.
      rewrite (u_escape_hex4 c). cbn [app scanstring_loop N.eqb Pos.eqb].
      rewrite (scan_u_escape_pair c c' _ Hh Hl). cbn [bind].
      unfold code_points in Hs. cbn [forallb] in Hs.
      apply andb_true_iff in Hs as [_ Hs'].
      rewrite (IH s' rest fuel); [reflexivity | | exact Hs' |];
        cbn [length] in *; lia.
    + rewrite (join_surrogates_cons c s Hpair).
      assert (IHs : scanstring_loop fuel (escape s ++ 34 :: rest)
                    = Ret (join_surrogates s, rest))
        by (apply IH; [lia | exact Hs | lia]).
      assert (Hahead : high_surrogate c = true ->
                       no_low_escape_ahead (escape s ++ 34 :: rest)).
      { intros Hh. rewrite Hh in Hpair. cbn [andb] in Hpair.
        apply escape_no_low_ahead_head; [apply code_points_Forall, Hs|].
        destruct s; [exact I | exact Hpair]. }
      rewrite escape_cons, <- app_assoc.
      destruct (ESCAPE_ASCII c) eqn:He.
      * destruct (replace_replaced c He) as [esc Hb Hu | Hlt | Hge].
        -- cbn [app scanstring_loop]. cbn [N.eqb Pos.eqb].
           rewrite Hu, Hb. cbn [bind]. rewrite IHs. reflexivity.
        -- rewrite u_escape_hex4. cbn [app scanstring_loop N.eqb Pos.eqb].
           rewrite scan_u_escape_bmp by assumption.
           cbn [bind]. rewrite IHs. reflexivity.
        -- rewrite (u_escape_hex4 (surrogate1 c)), <- app_assoc.
           cbn [app scanstring_loop N.eqb Pos.eqb].
           rewrite scan_u_escape_astral by assumption.
           cbn [bind]. rewrite IHs. reflexivity.
      * apply ESCAPE_ASCII_false in He as (H34 & H92 & H32).
        cbn [app scanstring_loop]. rewrite H34, H92, H32, IHs. reflexivity.
Qed.

Lemma reads_back_join s : code_points s = true -> reads_back s (join_surrogates s).
Proof.
  intros Hcp rest. unfold scanstring.
  apply (scanstring_loop_join (length s)); [apply le_n | exact Hcp |].
  rewrite length_app. pose proof (length_escape s). lia.
Qed.

Lemma JSONObject_loop_reads d : forall d' k v k' v' acc fuel after,
  Forall2 reads_item ((k, v) :: d) ((k', v') :: d') ->
  (length d < fuel)%nat ->
  JSONObject_loop fuel
    (escape k ++ 34 :: 58 :: 32 :: 34 :: escape v ++ 34
       :: iterencode_items false d ++ 125 :: after) acc
  = Ret (rev acc ++ (k', v') :: d', after).
Proof.
  induction d as [|[k1 v1] d IH]; intros d' k v k' v' acc fuel after Hread Hfuel;
    (destruct fuel as [|fuel]; [inversion Hfuel|]);
    inversion Hread as [|? ? ? ? [Hk Hv] Hrest]; subst;
    cbn [fst snd] in Hk, Hv;
    cbn [JSONObject_loop];
    rewrite (Hk _); cbn [bind skip_ws is_ws N.eqb Pos.eqb orb negb scan_once];
    rewrite (Hv _); cbn [bind].
  - inversion Hrest; subst.
    cbn [iterencode_items app skip_ws is_ws N.eqb Pos.eqb orb negb rev]. reflexivity.
  - destruct d' as [|[k1' v1'] d']; [inversion Hrest|].
    cbn [iterencode_items app]. unfold py_encode_basestring_ascii.
    repeat (rewrite <- app_assoc; cbn [app]).
    cbn [skip_ws is_ws N.eqb Pos.eqb orb negb].
    rewrite (IH d' k1 v1 k1' v1').
    + cbn [rev]. rewrite <- app_assoc. reflexivity.
    + exact Hrest.
    + cbn [length] in Hfuel. lia.
Qed.

Lemma loads_dumps_reads d d' :
  Forall2 reads_item d d' -> loads (dumps d) = Ret (dict_of_pairs d').
Proof.
  intros Hread. destruct d as [|[k v] d].
  { inversion Hread; subst. reflexivity. }
  destruct d' as [|[k' v'] d']; [inversion Hread|].
  unfold dumps, loads. cbn [iterencode_items app].
  unfold py_encode_basestring_ascii.
  repeat (rewrite <- app_assoc; cbn [app]).
  cbn [skip_ws is_ws N.eqb Pos.eqb orb]. unfold JSONObject.
  cbn [skip_ws is_ws N.eqb Pos.eqb orb].
  rewrite (JSONObject_loop_reads d d' k v k' v' [] _ []).
  - cbn [bind rev app skip_ws]. reflexivity.
  - exact Hread.
  - rewrite !length_app. cbn [length]. rewrite !length_app. cbn [length].
    rewrite length_app.
    pose proof (length_iterencode_items false d). lia.
Qed.

End JsonSurrogates.

Lemma reads_back_stable s : json_stable s -> reads_back s s.
Proof. intros H rest. apply scanstring_escape, H. Qed.

(** What [load_config] returns after [save_config], for all strings. *)
Lemma load_config_save_config_joins yt_url stream_key st :
  code_points yt_url = true -> code_points stream_key = true ->
  load_config (config_file (save_config yt_url stream_key st))
  = Ret [(str "YOUTUBE_URL", join_surrogates yt_url);
         (str "STREAM_KEY", join_surrogates stream_key)].
Proof.
  intros Hu Hk. cbn [save_config write_config_file config_file load_config].
  rewrite (loads_dumps_reads _
             [(str "YOUTUBE_URL", join_surrogates yt_url);
              (str "STREAM_KEY", join_surrogates stream_key)]).
  - reflexivity.
  - repeat constructor; cbn [fst snd];
      try (apply reads_back_join; assumption);
      apply reads_back_stable, unicode_text_stable; reflexivity.
Qed.

Lemma join_surrogates_no_pair s :
  no_surrogate_pair s = true -> join_surrogates s = s.
Proof.
  induction s as [|c s IH]; [reflexivity|]. intros H.
  destruct s as [|c' s']; [reflexivity|].
  rewrite no_surrogate_pair_cons in H. apply andb_true_iff in H as [Hhead Htail].
  apply negb_true_iff in Hhead.
  rewrite (join_surrogates_cons c (c' :: s') Hhead), (IH Htail). reflexivity.
Qed.

Lemma join_surrogates_length n : forall s, (length s <= n)%nat ->
  (length (join_surrogates s) <= length s)%nat
  /\ (join_surrogates s = s -> no_surrogate_pair s = true).
Proof.
  induction n as [|n IH]; intros s Hn.
  - destruct s; [split; [apply le_n | reflexivity] | cbn [length] in Hn; lia].
  - destruct s as [|c s]; [split; [apply le_n | reflexivity]|].
    destruct s as [|c' s']; [split; [apply le_n | reflexivity]|].
    cbn [length] in Hn.
    destruct (high_surrogate c && low_surrogate c') eqn:Hpair.
    + apply andb_true_iff in Hpair as [Hh Hl].
      rewrite (join_surrogates_pair c c' s' Hh Hl).
      destruct (IH s') as [Hlen _]; [lia|]. cbn [length]. split; [lia|].
      intros E. apply (f_equal (@length N)) in E. cbn [length] in E. lia.
    + rewrite (join_surrogates_cons c (c' :: s') Hpair).
      destruct (IH (c' :: s')) as [Hlen Hid]; [cbn [length]; lia|].
      split; [cbn [length] in *; lia|].
      intros [= E]. rewrite no_surrogate_pair_cons, Hpair, (Hid E). reflexivity.
Qed.

Lemma join_surrogates_id_iff s :
  join_surrogates s = s <-> no_surrogate_pair s = true.
Proof.
  split; [|apply join_surrogates_no_pair].
  apply (join_surrogates_length (length s) s (le_n _)).
Qed.

(** X23. For any two Python strings, [load_config] after [save_config]
    returns them with every high surrogate that is directly followed by a
    low surrogate replaced, together with it, by the code point the pair
    encodes. *)
Theorem save_then_load_joins_surrogate_pairs yt_url stream_key st :
  code_points yt_url = true -> code_points stream_key = true ->
  load_config (config_file (save_config yt_url stream_key st))
  = Ret [(str "YOUTUBE_URL", join_surrogates yt_url);
         (str "STREAM_KEY", join_surrogates stream_key)].
Proof.
  intros Hu Hk. cbn [save_config write_config_file config_file load_config].
  rewrite (loads_dumps_reads _
             [(str "YOUTUBE_URL", join_surrogates yt_url);
              (str "STREAM_KEY", join_surrogates stream_key)]);
    [reflexivity|].
  constructor; [split | constructor; [split | constructor]]; cbn [fst snd].
  - apply reads_back_stable, unicode_text_stable. reflexivity.
  - apply reads_back_join, Hu.
  - apply reads_back_stable, unicode_text_stable. reflexivity.
  - apply reads_back_join, Hk.
Qed.

Lemma save_then_load_joins_surrogate_pairs_witness :
  load_config
    (config_file (save_config [0xd83d; 0xde00; 0xde00; 0xd83d]%N (str "k")
                    (demo_state (str "") None)))
  = Ret [(str "YOUTUBE_URL", [0x1f600; 0xde00; 0xd83d]%N); (str "STREAM_KEY", str "k")].
Proof.
  apply (save_then_load_joins_surrogate_pairs [0xd83d; 0xde00; 0xde00; 0xd83d]%N (str "k"));
    reflexivity.
Defined.

(** X24. For any two Python strings, [load_config] after [save_config]
    returns exactly the saved record if and only if neither string holds a
    high surrogate directly followed by a low surrogate. *)
Theorem save_then_load_identity_iff yt_url stream_key st :
  code_points yt_url = true -> code_points stream_key = true ->
  load_config (config_file (save_config yt_url stream_key st))
  = Ret [(str "YOUTUBE_URL", yt_url); (str "STREAM_KEY", stream_key)]
  <-> no_surrogate_pair yt_url = true /\ no_surrogate_pair stream_key = true.
Proof.
  intros Hu Hk. rewrite (load_config_save_config_joins _ _ st Hu Hk).
  rewrite <- !join_surrogates_id_iff. split.
  - intros [= -> ->]. split; reflexivity.
  - intros [-> ->]. reflexivity.
Qed.

Lemma save_then_load_identity_iff_witness :
  load_config
    (config_file (save_config [0xde00; 0xd83d]%N (str "k") (demo_state (str "") None)))
  = Ret [(str "YOUTUBE_URL", [0xde00; 0xd83d]%N); (str "STREAM_KEY", str "k")].
Proof.
  apply (proj2 (save_then_load_identity_iff [0xde00; 0xd83d]%N (str "k")
                  (demo_state (str "") None) eq_refl eq_refl)).
  split; reflexivity.
Defined.



(* ================================================================== *)
(** * Failures of the standard output and of the settings file *)
(* ================================================================== *)

(** X26. When every check passes but [print] raises on the line of line
    111 (a path the standard output cannot encode), the exception leaves
    [start_stream] before [Popen] is called: the state is exactly as
    before, so nothing is printed, no process is started and a process that
    was held is still held. *)
Theorem start_stream_print_raises
    os st newest_mp4 config youtube_url stream_key e :
  py_not (VIDEO_FOLDER st) = false ->
  get_newest_mp4 os (VIDEO_FOLDER st) = Ret (Some newest_mp4) ->
  py_not newest_mp4 = false ->
  load_config (config_file st) = Ret config ->
  dict_get config (str "YOUTUBE_URL") = Ret youtube_url ->
  dict_get config (str "STREAM_KEY") = Ret stream_key ->
  py_not stream_key = false ->
  print_raises os (str "Streaming: " ++ newest_mp4) = Some e ->
  start_stream os st = (Raised e, st).
Proof.
  intros Hfolder Hnewest Htruthy Hload Hurl Hkey Hpresent Hprint.
  unfold start_stream. rewrite Hfolder, Hnewest.
  destruct newest_mp4 as [|c p]; [discriminate Htruthy|].
  rewrite Hload. cbn [bind]. rewrite Hurl. cbn [bind]. rewrite Hkey. cbn [bind].
  rewrite Hpresent. cbn zeta. rewrite Hprint. reflexivity.
Qed.

Lemma start_stream_print_raises_witness :
  let st := snd (start_stream demo_os (demo_state (str "videos") demo_settings)) in
  ffmpeg_process st = Some 0%nat
  /\ start_stream demo_os_ascii_stdout st = (Raised UnicodeEncodeError, st).
Proof.
  intros st. split; [reflexivity|].
  apply (start_stream_print_raises demo_os_ascii_stdout st
           (str "videos/" ++ [0x65e5; 0x672c]%N ++ str ".mp4")
           [(str "YOUTUBE_URL", str "rtmp://host/live2");
            (str "STREAM_KEY", str "secret123")]
           (str "rtmp://host/live2") (str "secret123") UnicodeEncodeError);
    reflexivity.
Defined.

(** X27. A Save click whose write fails after [open] has emptied the file,
    with nothing written, leaves an empty settings file: the exception
    leaves the callback, [load_config] then raises [JSONDecodeError], the
    next [start_stream] that finds a media file raises it too and changes
    nothing, and so does the next start-up of the program. *)
Theorem failed_write_leaves_settings_unusable e yt_url_entry stream_key_entry st :
  py_not (strip yt_url_entry) = false ->
  py_not (strip stream_key_entry) = false ->
  let st1 :=
    snd (save_and_close_failing (WriteRaises 0 e) yt_url_entry stream_key_entry st) in
  fst (save_and_close_failing (WriteRaises 0 e) yt_url_entry stream_key_entry st)
  = Some e
  /\ config_file st1 = Some []
  /\ load_config (config_file st1) = Raise JSONDecodeError
  /\ module_init (config_file st1) = Raise JSONDecodeError
  /\ forall os newest_mp4,
       py_not (VIDEO_FOLDER st) = false ->
       get_newest_mp4 os (VIDEO_FOLDER st) = Ret (Some newest_mp4) ->
       py_not newest_mp4 = false ->
       start_stream os st1 = (Raised JSONDecodeError, st1).
Proof.
  intros Hu Hk. unfold save_and_close_failing, save_config_failing. cbn zeta.
  rewrite Hu, Hk. cbn [orb fst snd firstn write_config_file config_file].
  repeat split.
  intros os newest_mp4 Hfolder Hnewest Htruthy.
  unfold start_stream. cbn [write_config_file VIDEO_FOLDER config_file].
  rewrite Hfolder, Hnewest.
  destruct newest_mp4 as [|c p]; [discriminate Htruthy|]. reflexivity.
Qed.

Lemma failed_write_leaves_settings_unusable_witness :
  let st := demo_state (str "videos") demo_settings in
  let st1 := snd (save_and_close_failing (WriteRaises 0 (OSError 28))
                    (str "rtmp://host/live2") (str "secret123") st) in
  load_config (config_file st1) = Raise JSONDecodeError
  /\ start_stream demo_os st1 = (Raised JSONDecodeError, st1).
Proof.
  intros st st1.
  destruct (failed_write_leaves_settings_unusable (OSError 28)
              (str "rtmp://host/live2") (str "secret123") st eq_refl eq_refl)
    as (_ & _ & Hload & _ & Hstart).
  exact (conj Hload (Hstart demo_os (str "videos/b.mp4") eq_refl eq_refl eq_refl)).
Defined.

(** What [json.load] does with a settings file that holds only the first
    characters of the text [json.dump] writes. *)
Section JsonTruncated.
Import Json.
Local Open Scope N_scope.

(** The first character of well-formed text and the rest of it. *)
Lemma unicode_text_cons c s :
  unicode_text (c :: s) = true ->
  c < 0x110000 /\ high_surrogate c = false /\ unicode_text s = true.
Proof.
  unfold unicode_text. cbn [forallb]. intros H.
  apply andb_true_iff in H as [Hc Hs]. unfold scalar_value in Hc.
  apply andb_true_iff in Hc as [Hlt Hns]. apply N.ltb_lt in Hlt.
  apply negb_true_iff in Hns. split; [exact Hlt|]. split; [|exact Hs].
  unfold high_surrogate. apply andb_false_iff in Hns as [H | H].
  - rewrite H. reflexivity.
  - apply andb_false_iff. right. apply N.leb_gt. apply N.leb_gt in H. lia.
Qed.

(** An escape of the form backslash, u and four digits, cut short, does not scan. *)
Lemma firstn_u_escape_short n c rest fuel :
  (n < 6)%nat -> (n < fuel)%nat ->
  scanstring_loop fuel (firstn n (u_escape c ++ rest)) = Raise JSONDecodeError.
Proof.
  intros Hn Hfuel. destruct fuel as [|fuel]; [inversion Hfuel|].
  unfold u_escape.
  do 6 (destruct n as [|n]; [reflexivity|]). lia.
Qed.

(** A string cut before its closing quote does not scan. *)
Lemma scanstring_loop_cut s : forall n fuel,
  unicode_text s = true ->
  (n <= length (escape s))%nat -> (n < fuel)%nat ->
  scanstring_loop fuel (firstn n (escape s)) = Raise JSONDecodeError.
Proof.
  induction s as [|c s IH]; intros n fuel Htext Hn Hfuel.
  - destruct fuel; [inversion Hfuel|]. destruct n; reflexivity.
  - destruct (unicode_text_cons c s Htext) as (Hc & Hhigh & Hs).
    destruct fuel as [|fuel]; [inversion Hfuel|].
    rewrite escape_cons in *.
    destruct (ESCAPE_ASCII c) eqn:He.
    + destruct (replace_replaced c He) as [esc Hb Hu | Hlt | Hge].
      * destruct n as [|[|n]]; [reflexivity | reflexivity|].
        cbn [app firstn scanstring_loop N.eqb Pos.eqb].
        rewrite Hu, Hb. cbn [bind].
        rewrite IH; [reflexivity | exact Hs | | lia].
        cbn [app length] in Hn. lia.
      * destruct (Nat.lt_ge_cases n 6) as [Hshort | Hlong].
        -- apply firstn_u_escape_short; [exact Hshort | exact Hfuel].
        -- rewrite firstn_app. change (length (u_escape c)) with 6%nat.
           rewrite (firstn_all2 (u_escape c)) by exact Hlong.
           rewrite u_escape_hex4. cbn [app scanstring_loop N.eqb Pos.eqb].
           rewrite scan_u_escape_bmp; [|exact Hlt | rewrite Hhigh; discriminate].
           cbn [bind]. rewrite IH; [reflexivity | exact Hs | | lia].
           rewrite length_app in Hn. change (length (u_escape c)) with 6%nat in Hn. lia.
      * destruct (Nat.lt_ge_cases n 6) as [Hshort | Hlong].
        -- rewrite <- app_assoc. apply firstn_u_escape_short; [exact Hshort | exact Hfuel].
        -- destruct (Nat.lt_ge_cases n 12) as [Hmid | Hfull].
           ++ (* the second escape is cut *)
              pose proof (surrogate1_range c Hge Hc) as H1.
              rewrite <- app_assoc, firstn_app.
              change (length (u_escape (surrogate1 c))) with 6%nat.
              rewrite (firstn_all2 (u_escape (surrogate1 c))) by exact Hlong.
              rewrite (u_escape_hex4 (surrogate1 c)).
              cbn [app scanstring_loop N.eqb Pos.eqb].
              unfold scan_u_escape. rewrite decode_hex4 by lia. cbn [bind].
              rewrite skipn_hex4.
              assert (Hh : high_surrogate (surrogate1 c) = true).
              { unfold high_surrogate. apply andb_true_intro.
                split; apply N.leb_le; lia. }
              rewrite Hh. cbn [andb].
              assert (Hj : (n - 6 < 6)%nat) by lia.
              destruct fuel as [|fuel]; [lia|].
              unfold u_escape at 1.
              remember (n - 6)%nat as j eqn:Ej.
              do 6 (destruct j as [|j]; [reflexivity|]). lia.
           ++ rewrite firstn_app.
              assert (Hlen : length (u_escape (surrogate1 c) ++ u_escape (surrogate2 c))
                             = 12%nat) by reflexivity.
              rewrite Hlen.
              rewrite (firstn_all2 (u_escape (surrogate1 c) ++ u_escape (surrogate2 c)))
                by (rewrite Hlen; exact Hfull).
              rewrite (u_escape_hex4 (surrogate1 c)), <- app_assoc.
              cbn [app scanstring_loop N.eqb Pos.eqb].
              rewrite scan_u_escape_astral by assumption.
              cbn [bind]. rewrite IH; [reflexivity | exact Hs | | lia].
              rewrite length_app, Hlen in Hn. lia.
    + apply ESCAPE_ASCII_false in He as (H34 & H92 & H32).
      destruct n as [|n]; [reflexivity|].
      cbn [app firstn scanstring_loop]. rewrite H34, H92, H32.
      rewrite IH; [reflexivity | exact Hs | | lia].
      cbn [app length] in Hn. lia.
Qed.

(** [scanstring] on a text cut inside the string. *)
Lemma scanstring_cut s n rest :
  unicode_text s = true -> (n <= length (escape s))%nat ->
  scanstring (firstn n (escape s ++ 34 :: rest)) = Raise JSONDecodeError.
Proof.
  intros Htext Hn. rewrite firstn_app.
  replace (n - length (escape s))%nat with 0%nat by lia.
  cbn [firstn]. rewrite app_nil_r. unfold scanstring.
  apply scanstring_loop_cut; [exact Htext | exact Hn |].
  rewrite length_firstn. lia.
Qed.

(** [scanstring] on a text cut after the closing quote of the string. *)
Lemma scanstring_uncut s n rest :
  unicode_text s = true -> (length (escape s) < n)%nat ->
  scanstring (firstn n (escape s ++ 34 :: rest))
  = Ret (s, firstn (n - S (length (escape s))) rest).
Proof.
  intros Htext Hn. rewrite firstn_app, firstn_all2 by lia.
  destruct (n - length (escape s))%nat as [|m] eqn:E; [lia|].
  cbn [firstn]. replace (n - S (length (escape s)))%nat with m by lia.
  apply scanstring_escape, unicode_text_stable, Htext.
Qed.

(** The members of an object, cut anywhere before the end of the text. *)
Lemma JSONObject_loop_cut d : forall k v acc fuel n,
  Forall text_item ((k, v) :: d) ->
  Nat.lt n (length (escape k ++ 34 :: 58 :: 32 :: 34 :: escape v ++ 34
                       :: iterencode_items false d ++ [125])) ->
  (n < fuel)%nat ->
  JSONObject_loop fuel
    (firstn n (escape k ++ 34 :: 58 :: 32 :: 34 :: escape v ++ 34
                 :: iterencode_items false d ++ [125])) acc
  = Raise JSONDecodeError.
Proof.
  induction d as [|[k' v'] d IH]; intros k v acc fuel n Htext Hn Hfuel;
    (destruct fuel as [|fuel]; [inversion Hfuel|]);
    pose proof (Forall_inv Htext) as [Hk Hv]; cbn [fst snd] in Hk, Hv;
    cbn [JSONObject_loop];
    (destruct (Nat.le_gt_cases n (length (escape k))) as [Hcut | Hpast];
     [rewrite scanstring_cut by assumption; reflexivity|]);
    rewrite scanstring_uncut by assumption; cbn [bind];
    rewrite length_app in Hn; cbn [length] in Hn;
    rewrite length_app in Hn; cbn [length] in Hn;
    remember (n - S (length (escape k)))%nat as m eqn:Em;
    (destruct m as [|m]; [reflexivity|]);
    (destruct m as [|m]; [reflexivity|]);
    (destruct m as [|m]; [reflexivity|]);
    cbn [firstn skip_ws is_ws N.eqb Pos.eqb orb negb scan_once];
    (destruct (Nat.le_gt_cases m (length (escape v))) as [Hcut | Hpast'];
     [rewrite scanstring_cut by assumption; reflexivity|]);
    rewrite scanstring_uncut by assumption; cbn [bind];
    remember (m - S (length (escape v)))%nat as j eqn:Ej.
  - cbn [iterencode_items app length] in *.
    destruct j as [|j]; [reflexivity | lia].
  - cbn [iterencode_items app] in *. unfold py_encode_basestring_ascii in *.
    repeat (rewrite <- app_assoc in *; cbn [app] in * ).
    destruct j as [|j]; [reflexivity|].
    destruct j as [|j]; [reflexivity|].
    destruct j as [|j]; [reflexivity|].
    cbn [firstn skip_ws is_ws N.eqb Pos.eqb orb negb].
    apply IH.
    + apply (Forall_inv_tail Htext).
    + cbn [length] in Hn. lia.
    + lia.
Qed.

(** Any proper prefix of the text of two settings is not a JSON text. *)
Lemma loads_cut yt_url stream_key n :
  unicode_text yt_url = true -> unicode_text stream_key = true ->
  Nat.lt n (length (dumps [(str "YOUTUBE_URL", yt_url); (str "STREAM_KEY", stream_key)])) ->
  loads (firstn n (dumps [(str "YOUTUBE_URL", yt_url); (str "STREAM_KEY", stream_key)]))
  = Raise JSONDecodeError.
Proof.
  intros Hu Hk. unfold dumps. cbn [iterencode_items app].
  unfold py_encode_basestring_ascii.
  repeat (rewrite <- app_assoc; cbn [app]).
  intros Hn. cbn [length] in Hn.
  destruct n as [|n]; [reflexivity|].
  destruct n as [|n]; [reflexivity|].
  unfold loads. cbn [firstn skip_ws is_ws N.eqb Pos.eqb orb]. unfold JSONObject.
  cbn [skip_ws is_ws N.eqb Pos.eqb orb].
  pose proof (JSONObject_loop_cut [(str "STREAM_KEY", stream_key)]
                (str "YOUTUBE_URL") yt_url []) as Hcut.
  cbn [iterencode_items app] in Hcut. unfold py_encode_basestring_ascii in Hcut.
  repeat (rewrite <- app_assoc in Hcut; cbn [app] in Hcut).
  rewrite Hcut.
  - reflexivity.
  - repeat constructor; assumption.
  - unfold Nat.lt in *. lia.
  - rewrite length_firstn. lia.
Qed.

End JsonTruncated.

(** X28. A Save click whose write fails part of the way, with fewer
    characters in the file than the text of the settings has, leaves a
    settings file that does not load: the exception leaves the callback,
    [load_config] then raises [JSONDecodeError], the next [start_stream]
    that finds a media file raises it too and changes nothing, and so does
    the next start-up of the program. *)
Theorem partial_write_leaves_settings_unusable kept e yt_url_entry stream_key_entry st :
  py_not (strip yt_url_entry) = false ->
  py_not (strip stream_key_entry) = false ->
  unicode_text (strip yt_url_entry) = true ->
  unicode_text (strip stream_key_entry) = true ->
  Nat.ltb kept
    (length (Json.dumps [(str "YOUTUBE_URL", strip yt_url_entry);
                         (str "STREAM_KEY", strip stream_key_entry)])) = true ->
  let st1 :=
    snd (save_and_close_failing (WriteRaises kept e) yt_url_entry stream_key_entry st) in
  fst (save_and_close_failing (WriteRaises kept e) yt_url_entry stream_key_entry st)
  = Some e
  /\ config_file st1
     = Some (firstn kept (Json.dumps [(str "YOUTUBE_URL", strip yt_url_entry);
                                      (str "STREAM_KEY", strip stream_key_entry)]))
  /\ load_config (config_file st1) = Raise JSONDecodeError
  /\ module_init (config_file st1) = Raise JSONDecodeError
  /\ forall os newest_mp4,
       py_not (VIDEO_FOLDER st) = false ->
       get_newest_mp4 os (VIDEO_FOLDER st) = Ret (Some newest_mp4) ->
       py_not newest_mp4 = false ->
       start_stream os st1 = (Raised JSONDecodeError, st1).
Proof.
  intros Hu Hk Htu Htk Hkept. apply Nat.ltb_lt in Hkept.
  pose proof (loads_cut (strip yt_url_entry) (strip stream_key_entry) kept
                Htu Htk Hkept) as Hloads.
  unfold save_and_close_failing, save_config_failing. cbn zeta.
  rewrite Hu, Hk. cbn [orb fst snd write_config_file config_file].
  split; [reflexivity|]. split; [reflexivity|].
  split; [exact Hloads|].
  split.
  - unfold module_init. cbn [create_config_file load_config].
    rewrite Hloads. reflexivity.
  - intros os newest_mp4 Hfolder Hnewest Htruthy.
    unfold start_stream. cbn [write_config_file VIDEO_FOLDER config_file].
    rewrite Hfolder, Hnewest.
    destruct newest_mp4 as [|c p]; [discriminate Htruthy|].
    cbn [load_config]. rewrite Hloads. reflexivity.
Qed.

Lemma partial_write_leaves_settings_unusable_witness :
  let st := demo_state (str "videos") demo_settings in
  let st1 := snd (save_and_close_failing (WriteRaises 40 (OSError 28))
                    (str "rtmp://host/live2") (str "secret123") st) in
  load_config (config_file st1) = Raise JSONDecodeError
  /\ start_stream demo_os st1 = (Raised JSONDecodeError, st1).
Proof.
  intros st st1.
  destruct (partial_write_leaves_settings_unusable 40 (OSError 28)
              (str "rtmp://host/live2") (str "secret123") st
              eq_refl eq_refl eq_refl eq_refl eq_refl)
    as (_ & _ & Hload & _ & Hstart).
  exact (conj Hload (Hstart demo_os (str "videos/b.mp4") eq_refl eq_refl eq_refl)).
Defined.
